(** * coverage_exercise.py: a shallow embedding and its verified properties

    The program reads a sambamba coverage report, keeps the exons whose
    30x coverage is not 100, looks up an HGNC identifier for each of them
    in a dump of the HGNC site, and writes a text file of unique genes
    and a workbook of the affected exons.

    The embedding follows [src/coverage_exercise.py] function by
    function.  A pandas data frame is a list of records (one record per
    row, one field per column); Python exceptions are an explicit error
    type threaded through an error monad; a [str] is a [string] (a list
    of characters, each an [ascii]). *)

From Stdlib Require Import String Ascii List Bool Arith Lia QArith.
Import ListNotations.
Local Open Scope nat_scope.
Local Open Scope string_scope.
Local Open Scope list_scope.

(** ** Python values and exceptions *)

(** The exceptions the program can raise. [AssertionError] carries the
    message of the failed [assert]. *)
Inductive exn : Type :=
| AttributeError
| TypeError
| ValueError
| IndexError
| KeyError
| AssertionError (msg : string).

Inductive result (A : Type) : Type :=
| Ok (a : A)
| Raise (e : exn).
Arguments Ok {A} a.
Arguments Raise {A} e.

Definition bind {A B : Type} (c : result A) (k : A -> result B) : result B :=
  match c with
  | Ok a => k a
  | Raise e => Raise e
  end.

Notation "x <- c ;; k" := (bind c (fun x => k))
  (at level 61, c at next level, right associativity).

(** A value held by a text column of a data frame.  [pd.read_csv] turns
    an empty field into the float [nan]; [str.split(expand=True)] pads a
    short row with [None].  Every other field of a text column is a
    [str]. *)
Inductive cell : Type :=
| Str (s : string)
| NaN
| PyNone.

(** A value of a numeric column: a finite number (an [int] or a finite
    [float], both rationals) or the float [nan]. *)
Inductive number : Type :=
| Num (q : Q)
| NumNaN.

(** [x != 100] on a numeric value; [nan != 100] is [True]. *)
Definition ne_100 (x : number) : bool :=
  match x with
  | Num q => negb (Qeq_bool q (100 # 1))
  | NumNaN => true
  end.

(** [f"{x}"] for a cell. *)
Definition format_cell (x : cell) : string :=
  match x with
  | Str s => s
  | NaN => "nan"
  | PyNone => "None"
  end.

Definition nl : ascii := "010"%char.
Definition tab : ascii := "009"%char.

(** ** The two regular expressions

    Both calls have the shape [re.search('(.*?)(?=L)', s).group()]: a
    lazy run of characters other than a line feed, followed by a
    lookahead [L] that consumes nothing. *)

Section Regex.

(** The lookahead, as a test on the text that remains. *)
Variable look : string -> bool.

(** [(.*?)(?=L)] tried at the start of [s]: the shortest run wins, and
    [.] does not match a line feed. *)
Fixpoint lazy_run (s : string) : option string :=
  if look s then Some ""
  else match s with
       | "" => None
       | String c r =>
           if Ascii.eqb c nl then None
           else option_map (String c) (lazy_run r)
       end.

(** [re.search]: the leftmost start position at which the pattern
    matches. *)
Fixpoint re_search (s : string) : option string :=
  match lazy_run s with
  | Some m => Some m
  | None => match s with
            | "" => None
            | String _ r => re_search r
            end
  end.

End Regex.

(** [m.group()]: [None.group()] raises [AttributeError]. *)
Definition group (m : option string) : result string :=
  match m with
  | Some g => Ok g
  | None => Raise AttributeError
  end.

(** [re.search(pattern, x)] on a value that is not a [str] raises
    [TypeError]. *)
Definition re_search_cell (look : string -> bool) (x : cell)
  : result (option string) :=
  match x with
  | Str s => Ok (re_search look s)
  | _ => Raise TypeError
  end.

(** Pieces of a pattern, each given the test for what follows it. *)
Definition any_char (k : string -> bool) (s : string) : bool :=
  match s with
  | "" => false
  | String c r => negb (Ascii.eqb c nl) && k r
  end.

Fixpoint literal (l : string) (k : string -> bool) (s : string) : bool :=
  match l with
  | "" => k s
  | String a l' =>
      match s with
      | "" => false
      | String c r => Ascii.eqb c a && literal l' k r
      end
  end.

(** [$]: the end of the text, or just before a line feed that ends it. *)
Definition at_end (s : string) : bool :=
  match s with
  | "" => true
  | String c "" => Ascii.eqb c nl
  | _ => false
  end.

(** [(?=\.)] *)
Definition dot_ahead : string -> bool := literal "." (fun _ => true).

(** [(?=.sambamba_output.txt$)]: neither dot is escaped, so each stands
    for any character other than a line feed. *)
Definition suffix_ahead : string -> bool :=
  any_char (literal "sambamba_output" (any_char (literal "txt" at_end))).

(** [s.split(sep, 1)] for a one-character separator. *)
Fixpoint split_once (sep : ascii) (s : string) : list string :=
  match s with
  | "" => [""]
  | String c r =>
      if Ascii.eqb c sep then [""; r]
      else match split_once sep r with
           | h :: t => String c h :: t
           | [] => [String c ""]
           end
  end.

(** [x in s] for two strings: [x] occurs in [s] as a contiguous run. *)
Fixpoint is_substring (x s : string) : bool :=
  String.prefix x s ||
  match s with
  | "" => false
  | String _ r => is_substring x r
  end.

(** [x in y] on cells.  The right operand must be a [str] ([x in nan]
    raises [TypeError]: a float is not iterable), and then so must the
    left one. *)
Definition py_in (x y : cell) : result bool :=
  match y, x with
  | Str s, Str g => Ok (is_substring g s)
  | _, _ => Raise TypeError
  end.

(** [a or b] on tests that may raise: [b] is evaluated only when [a] is
    false. *)
Definition py_or (a b : result bool) : result bool :=
  x <- a ;; if (x : bool) then Ok true else b.

(** [column == p] for one cell of the column and a [str] [p]. *)
Definition cell_eq_str (x : cell) (p : string) : bool :=
  match x with
  | Str s => String.eqb s p
  | _ => false
  end.

(** ** The data frames

    One record per row.  The column names are the field names. *)

(** A value of the [GeneSymbol;Accession] column as [pd.read_csv]
    returns it: a [str]; the float [nan] for a field it reads as missing
    (NA, NULL, nan, ...); or a number.  [pd.read_csv] gives the column
    the dtype [object], with a [str] for every field that is not
    missing, as soon as one field is not a number; a column of numbers
    and missing fields only is numeric. *)
Inductive read_value : Type :=
| ReadStr (s : string)
| ReadNaN
| ReadNum (q : Q).

(** A row of the sambamba output as [pd.read_csv] returns it, with the
    three columns the program reads.  [percentage30] is numeric. *)
Record sambamba_row : Type := {
  GeneSymbol_Accession : read_value;
  FullPosition : cell;
  percentage30 : number }.

(** A row of [coverage_df] once [create_df] has added its two columns. *)
Record coverage_row : Type := {
  sambamba : sambamba_row;
  GeneSymbol : cell;
  Accession : cell }.

(** A row of [issues_df] as [find_coverage_issues] builds it. *)
Record issue_row : Type := {
  gene : cell;
  accession : cell;
  exon_position : cell;
  percent_x30 : number }.

(** A row of [issues_df] once [get_hgncs] has added the [hgnc] column. *)
Record annotated_row : Type := {
  issue :> issue_row;
  hgnc : cell }.

(** A row of [hgnc_df], under the five column names [get_hgncs] gives
    it.  A frame whose file has another number of columns is refused by
    the assignment to [hgnc_df.columns], so the record has exactly these
    fields. *)
Module HGNC.
Record row : Type := {
  hgnc : cell;
  approved : cell;
  previous : cell;
  aliases : cell;
  refseq : cell }.
End HGNC.

Definition issues_columns : list string :=
  ["gene"; "accession"; "exon_position"; "percent_x30"].

(** ** [create_df] *)

Definition is_str (x : read_value) : bool :=
  match x with
  | ReadStr _ => true
  | _ => false
  end.

(** [Series.str]: the accessor exists on an empty column and on a column
    that holds a [str]; on a column of numbers or of missing values only
    (a numeric column) it raises [AttributeError] (can only use .str
    accessor with string values). *)
Definition str_accessor (column : list read_value)
  : result (list read_value) :=
  match column with
  | [] => Ok column
  | _ :: _ => if existsb is_str column then Ok column
              else Raise AttributeError
  end.

(** [.split(';', n=1)] on one value of the column: the list of the
    parts of a [str], and [nan] ([None] here) for any other value. *)
Definition split_value (x : read_value) : option (list string) :=
  match x with
  | ReadStr s => Some (split_once ";" s)
  | _ => None
  end.

(** [expand=True]: the frame that results has as many columns as the
    longest row (none when the series is empty), a [nan] counting for
    one; a shorter list of parts is padded with [None], and a [nan]
    fills its whole row. *)
Definition pad (width : nat) (parts : list string) : list cell :=
  map Str parts ++ repeat PyNone (width - length parts).

Definition row_length (x : option (list string)) : nat :=
  match x with
  | Some parts => length parts
  | None => 1
  end.

Definition expand_row (width : nat) (x : option (list string)) : list cell :=
  match x with
  | Some parts => pad width parts
  | None => repeat NaN width
  end.

(** [Series.str.split(';', n=1, expand=True)] *)
Definition str_split_expand (column : list read_value)
  : nat * list (list cell) :=
  let split := map split_value column in
  let width := fold_right (fun x w => Nat.max (row_length x) w) 0 split in
  (width, map (expand_row width) split).

(** [coverage_df[['GeneSymbol', 'Accession']] = value]: the frame on the
    right must have two columns, or pandas raises [ValueError] (columns
    must be same length as key). *)
Definition set_gene_accession (coverage_df : list sambamba_row)
    (value : nat * list (list cell)) : result (list coverage_row) :=
  if Nat.eqb (fst value) 2 then
    Ok (map (fun '(r, parts) =>
               {| sambamba := r;
                  GeneSymbol := nth 0 parts PyNone;
                  Accession := nth 1 parts PyNone |})
            (combine coverage_df (snd value)))
  else Raise ValueError.

(** [input_file] is the path; [file_rows] is what [pd.read_csv] reads
    from it. *)
Definition create_df (input_file : string) (file_rows : list sambamba_row)
  : result (string * list coverage_row) :=
  let coverage_df := file_rows in
  column <- str_accessor (map GeneSymbol_Accession coverage_df) ;;
  coverage_df <- set_gene_accession coverage_df (str_split_expand column) ;;
  output_prefix <- group (re_search suffix_ahead input_file) ;;
  Ok (output_prefix, coverage_df).

(** ** [find_coverage_issues] *)

Definition new_issue (row : coverage_row) : issue_row :=
  {| gene := GeneSymbol row;
     accession := Accession row;
     exon_position := FullPosition (sambamba row);
     percent_x30 := percentage30 (sambamba row) |}.

(** The loop over [coverage_df.iterrows()]; [pd.concat] appends the new
    row at the end. *)
Definition find_coverage_issues (coverage_df : list coverage_row)
  : list issue_row :=
  fold_left
    (fun issues_df row =>
       if ne_100 (percentage30 (sambamba row))
       then issues_df ++ [new_issue row]
       else issues_df)
    coverage_df [].

(** ** [get_hgncs] *)

(** [df.index[mask]]: the labels of the rows the mask selects.  The
    frame has the default index, so a label is a position. *)
Fixpoint index_where {A : Type} (mask : A -> bool) (i : nat) (df : list A)
  : list nat :=
  match df with
  | [] => []
  | r :: rest =>
      if mask r then i :: index_where mask (S i) rest
      else index_where mask (S i) rest
  end.

(** [idx[0]] *)
Definition item0 (idx : list nat) : result nat :=
  match idx with
  | [] => Raise IndexError
  | i :: _ => Ok i
  end.

(** [df.loc[i]] *)
Definition loc (df : list HGNC.row) (i : nat) : result HGNC.row :=
  match nth_error df i with
  | Some r => Ok r
  | None => Raise KeyError
  end.

(** The [assert] on the row found and the identifier taken from it
    (lines 105 to 110).  The message is built only when the test is
    false. *)
Definition checked_hgnc (hgnc_row : HGNC.row) (gene acc : cell)
  : result cell :=
  holds <- py_or (py_in gene (HGNC.approved hgnc_row))
             (py_or (py_in gene (HGNC.previous hgnc_row))
                    (py_in gene (HGNC.aliases hgnc_row))) ;;
  if (holds : bool) then Ok (HGNC.hgnc hgnc_row)
  else Raise (AssertionError
                (format_cell acc ++ " wrongly matched to "
                 ++ format_cell (HGNC.hgnc hgnc_row))%string).

(** The body of the [try] block (lines 102 to 110). *)
Definition try_body (hgnc_df : list HGNC.row) (gene acc : cell)
    (acc_prefix : string) : result cell :=
  let hgnc_idx :=
    index_where (fun r => cell_eq_str (HGNC.refseq r) acc_prefix) 0 hgnc_df in
  i <- item0 hgnc_idx ;;
  hgnc_row <- loc hgnc_df i ;;
  checked_hgnc hgnc_row gene acc.

(** [try: ... except IndexError: hgnc = '-'] *)
Definition except_IndexError (body : result cell) : result cell :=
  match body with
  | Raise IndexError => Ok (Str "-")
  | r => r
  end.

(** One pass of the loop body (lines 97 to 113): the identifier for one
    row. *)
Definition hgnc_for (hgnc_df : list HGNC.row) (row : issue_row)
  : result cell :=
  let gene := gene row in
  let acc := accession row in
  m <- re_search_cell dot_ahead acc ;;
  acc_prefix <- group m ;;
  except_IndexError (try_body hgnc_df gene acc acc_prefix).

(** The loop over [issues_df.iterrows()], with the list [hgncs] it
    appends to. *)
Fixpoint get_hgncs_loop (hgnc_df : list HGNC.row) (rows : list issue_row)
    (hgncs : list cell) : result (list cell) :=
  match rows with
  | [] => Ok hgncs
  | row :: rest =>
      hgnc <- hgnc_for hgnc_df row ;;
      get_hgncs_loop hgnc_df rest (hgncs ++ [hgnc])
  end.

(** [issues_df['hgnc'] = hgncs]: a list of another length than the frame
    raises [ValueError]. *)
Definition set_hgnc (issues_df : list issue_row) (hgncs : list cell)
  : result (list annotated_row) :=
  if Nat.eqb (length hgncs) (length issues_df) then
    Ok (map (fun '(r, h) => {| issue := r; hgnc := h |})
            (combine issues_df hgncs))
  else Raise ValueError.

(** [hgnc_df] is what [pd.read_csv(hgnc_dump, sep='\t')] reads. *)
Definition get_hgncs (hgnc_df : list HGNC.row) (issues_df : list issue_row)
  : result (list annotated_row) :=
  hgncs <- get_hgncs_loop hgnc_df issues_df [] ;;
  set_hgnc issues_df hgncs.

(** ** [unique_gene_list] *)

Definition identifier (row : annotated_row) : string :=
  (format_cell (gene row) ++ String tab (format_cell (accession row))
   ++ String tab (format_cell (hgnc row)))%string.

Definition unique_gene_list (issues_df : list annotated_row) : list string :=
  fold_left
    (fun problem_genes row =>
       if existsb (String.eqb (identifier row)) problem_genes
       then problem_genes
       else problem_genes ++ [identifier row])
    issues_df [].

(** ** [create_outputs] *)

(** A value of a sheet. *)
Inductive value : Type :=
| Text (c : cell)
| Number (n : number).

(** What a file holds once written. *)
Inductive file : Type :=
| TextFile (content : string)
| Workbook (header : list string) (rows : list (list value)).

(** [writer.write(s)] on the text written so far. *)
Definition write (written s : string) : string := (written ++ s)%string.

(** [issues_df.to_excel(xlsx_file, index=False)]: a header row of the
    column names, then one row per row of the frame; with [index=False]
    no column holds the row labels. *)
Definition to_excel (issues_df : list annotated_row) : file :=
  Workbook (issues_columns ++ ["hgnc"])
    (map (fun row : annotated_row =>
            [Text (gene row); Text (accession row);
                      Text (exon_position row); Number (percent_x30 row);
                      Text (hgnc row)])
         issues_df).

(** The files written, in the order they are written, each with its
    name. *)
Definition create_outputs (output_prefix : string)
    (issues_df : list annotated_row) (problem_genes : list string)
  : list (string * file) :=
  let text_file := (output_prefix ++ ".low_coverage_genes.txt")%string in
  let xlsx_file :=
    (output_prefix ++ ".low_coverage_gene_exons.xlsx")%string in
  let writer := "" in
  let writer :=
    write writer
      ("Sample: " ++ output_prefix ++ String nl (String nl ""))%string in
  let writer :=
    write writer
      ("Genes with <100% coverage at 30x:" ++ String nl "")%string in
  let writer := write writer (String.concat (String nl "") problem_genes) in
  [(text_file, TextFile writer); (xlsx_file, to_excel issues_df)].

(** ** [main] *)

(** [input_file] is [sys.argv[1]]; [report] and [hgnc_dump] are the rows
    of the two files read. *)
Definition main (input_file : string) (report : list sambamba_row)
    (hgnc_dump : list HGNC.row) : result (list (string * file)) :=
  created <- create_df input_file report ;;
  let output_prefix := fst created in
  let coverage_df := snd created in
  let issues_df := find_coverage_issues coverage_df in
  issues_df <- get_hgncs hgnc_dump issues_df ;;
  let problem_genes := unique_gene_list issues_df in
  Ok (create_outputs output_prefix issues_df problem_genes).

(** * Notions the properties are stated with *)

(** The character [c] occurs in [s]. *)
Fixpoint has_char (c : ascii) (s : string) : bool :=
  match s with
  | "" => false
  | String a r => Ascii.eqb a c || has_char c r
  end.

(** The number is exactly 100. *)
Definition is_100 (x : number) : Prop :=
  match x with
  | Num q => (q == 100 # 1)%Q
  | NumNaN => False
  end.

(** The row's coverage at 30x is not 100, as the loop of
    [find_coverage_issues] tests it. *)
Definition flagged (row : coverage_row) : bool :=
  ne_100 (percentage30 (sambamba row)).

(** How many elements of [l] pass the test [p]. *)
Fixpoint count {A : Type} (p : A -> bool) (l : list A) : nat :=
  match l with
  | [] => 0
  | x :: r => (if p x then 1 else 0) + count p r
  end.

(** [l] without the repetitions of its elements: each element stays
    where it first occurs. *)
Fixpoint first_occurrences (l : list string) : list string :=
  match l with
  | [] => []
  | x :: r => x :: filter (fun y => negb (String.eqb y x)) (first_occurrences r)
  end.

(** The combined value of the row is a text that holds a [;]. *)
Definition holds_semicolon (r : sambamba_row) : bool :=
  match GeneSymbol_Accession r with
  | ReadStr s => has_char ";" s
  | _ => false
  end.

(** The combined value of the row is a text. *)
Definition holds_text (r : sambamba_row) : bool :=
  is_str (GeneSymbol_Accession r).

(** The row of [coverage_df] a row of the report becomes: a text is cut
    at its first [;], or left whole with [None] as accession when it
    holds no [;]; a value that is not a text (a missing field) gives
    [nan] for both columns. *)
Inductive row_split : sambamba_row -> coverage_row -> Prop :=
| split_in_two (r : sambamba_row) (g a : string) :
    GeneSymbol_Accession r = ReadStr (g ++ String ";" a) ->
    has_char ";" g = false ->
    row_split r {| sambamba := r; GeneSymbol := Str g; Accession := Str a |}
| split_in_one (r : sambamba_row) (s : string) :
    GeneSymbol_Accession r = ReadStr s ->
    has_char ";" s = false ->
    row_split r {| sambamba := r; GeneSymbol := Str s; Accession := PyNone |}
| split_missing (r : sambamba_row) :
    holds_text r = false ->
    row_split r {| sambamba := r; GeneSymbol := NaN; Accession := NaN |}.

(** The path ends in the suffix when each of the two dots of
    [.sambamba_output.txt] is read as any one character other than a
    line feed, and a final line feed is overlooked. *)
Definition ends_like_suffix (path : string) : Prop :=
  exists (p : string) (c1 c2 : ascii) (e : string),
    path = (p ++ String c1 ("sambamba_output" ++ String c2 ("txt" ++ e)))%string
    /\ c1 <> nl /\ c2 <> nl /\ (e = "" \/ e = String nl "").

(** [x] occurs in [s] as a contiguous run of characters. *)
Definition occurs_in (x s : string) : Prop :=
  exists u v : string, s = (u ++ x ++ v)%string.

(** * Sample rows

    The reference row of the specification's example, the same row as
    the HGNC site gives it (BRCA1 has no previous symbol, so that field
    of the dump is empty), and rows of a report that meet them. *)

Definition reference_row (id symbol prev alias acc_prefix : cell) : HGNC.row :=
  {| HGNC.hgnc := id; HGNC.approved := symbol; HGNC.previous := prev;
     HGNC.aliases := alias; HGNC.refseq := acc_prefix |}.

Definition brca1_entry : HGNC.row :=
  reference_row (Str "HGNC:1100") (Str "BRCA1") (Str "BRCA1L") (Str "FANCS")
           (Str "NM_007294").

Definition brca1_site_entry : HGNC.row :=
  reference_row (Str "HGNC:1100") (Str "BRCA1") NaN
           (Str "IRIS, PSCP, BRCAI, BRCC1, FANCS, PNCA4, PPP1R53")
           (Str "NM_007294").

Definition brca1_second_entry : HGNC.row :=
  reference_row (Str "HGNC:99999") (Str "BRCA1") (Str "BRCA1L") (Str "FANCS")
           (Str "NM_007294").

Definition tp53_entry : HGNC.row :=
  reference_row (Str "HGNC:11998") (Str "TP53") NaN (Str "p53, LFS1")
           (Str "NM_000546").

Definition issue_of (symbol acc : string) (percent : Q) : issue_row :=
  {| gene := Str symbol; accession := Str acc;
     exon_position := Str "chr17:41196312-41197819";
     percent_x30 := Num percent |}.

Definition brca1_issue : issue_row := issue_of "BRCA1" "NM_007294.4" (95 # 1).
Definition fancs_issue : issue_row := issue_of "FANCS" "NM_007294.4" (95 # 1).
Definition cs_issue : issue_row := issue_of "CS" "NM_007294.4" (95 # 1).
Definition tp53_issue : issue_row := issue_of "TP53" "NM_007294.4" (95 # 1).
Definition abc2_issue : issue_row := issue_of "ABC2" "NM_000111.2" (80 # 1).
Definition undotted_issue : issue_row := issue_of "ABC2" "NM_000111" (80 # 1).

(** An accession with a line feed before its first dot, as a quoted
    field of the report can hold one, and the row of the report it
    comes in. *)
Definition folded_accession : string :=
  ("NM_000111" ++ String nl "NM_007294.4")%string.

Definition folded_issue : issue_row :=
  issue_of "BRCA1" folded_accession (95 # 1).

Definition folded_report_row : sambamba_row :=
  {| GeneSymbol_Accession := ReadStr ("BRCA1;" ++ folded_accession);
     FullPosition := Str "chr17:41196312-41197819";
     percentage30 := Num (95 # 1) |}.

(** Rows of a report. *)
Definition report_row (combined : string) (percent : Q) : sambamba_row :=
  {| GeneSymbol_Accession := ReadStr combined;
     FullPosition := Str "chr17:41196312-41197819";
     percentage30 := Num percent |}.

Definition brca1_report_row : sambamba_row :=
  report_row "BRCA1;NM_007294.4" (95 # 1).
Definition xyz1_report_row : sambamba_row :=
  report_row "XYZ1;NM_999999.1" (100 # 1).
Definition abc2_report_row : sambamba_row :=
  report_row "ABC2;NM_000111.2" (80 # 1).
Definition unsplit_report_row : sambamba_row :=
  report_row "TP53" (100 # 1).

(** A row whose combined field is read as missing (NA), and one whose
    combined field is a number. *)
Definition missing_report_row : sambamba_row :=
  {| GeneSymbol_Accession := ReadNaN;
     FullPosition := Str "chr17:41196312-41197819";
     percentage30 := Num (100 # 1) |}.

Definition digits_report_row : sambamba_row :=
  {| GeneSymbol_Accession := ReadNum (12345 # 1);
     FullPosition := Str "chr17:41196312-41197819";
     percentage30 := Num (100 # 1) |}.

(** The text file of the specification's example run. *)
Definition example_text : string :=
  ("Sample: s1" ++ String nl (String nl
   ("Genes with <100% coverage at 30x:" ++ String nl
   ("BRCA1" ++ String tab ("NM_007294.4" ++ String tab ("HGNC:1100"
    ++ String nl
   ("ABC2" ++ String tab ("NM_000111.2" ++ String tab "-"))))))))%string.

(** * Further notions *)

(** The part of [s] that follows its last line feed: all of [s] when it
    holds none. *)
Fixpoint after_last_nl (s : string) : string :=
  match s with
  | "" => ""
  | String c r =>
      if has_char nl (String c r) then after_last_nl r else String c r
  end.

(** The symbol [g] occurs in the text of one of the three symbol fields
    of the reference row. *)
Definition symbol_found (g : string) (e : HGNC.row) : Prop :=
  (exists a, HGNC.approved e = Str a /\ occurs_in g a)
  \/ (exists b, HGNC.previous e = Str b /\ occurs_in g b)
  \/ (exists c, HGNC.aliases e = Str c /\ occurs_in g c).

(** The tests of the assertion, in the order they are made: the symbol
    occurs in the approved text, or that field is text and the symbol
    occurs in the previous text, or both are text and it occurs in the
    alias text. *)
Definition validation_passes (g : string) (e : HGNC.row) : Prop :=
  exists a, HGNC.approved e = Str a
    /\ (occurs_in g a
        \/ exists b, HGNC.previous e = Str b
             /\ (occurs_in g b
                 \/ exists c, HGNC.aliases e = Str c /\ occurs_in g c)).

(** The refseq field of the reference row is text (it is not empty). *)
Definition has_text_refseq (e : HGNC.row) : bool :=
  match HGNC.refseq e with
  | Str _ => true
  | _ => false
  end.

(** The three columns of a resolved row that its display string is
    made of. *)
Definition same_gene_columns (r1 r2 : annotated_row) : Prop :=
  gene r1 = gene r2 /\ accession r1 = accession r2 /\ hgnc r1 = hgnc r2.

(** More sample rows: a reference row with an empty refseq field, a
    second exon of BRCA1, and a flagged row of a report whose combined
    value is read as missing. *)
Definition no_refseq_entry : HGNC.row :=
  reference_row (Str "HGNC:5") (Str "A1BG") NaN NaN NaN.

Definition brca1_resolved : annotated_row :=
  {| issue := brca1_issue; hgnc := Str "HGNC:1100" |}.

Definition brca1_other_exon : annotated_row :=
  {| issue := {| gene := Str "BRCA1"; accession := Str "NM_007294.4";
                 exon_position := Str "chr17:41199659-41199720";
                 percent_x30 := Num (50 # 1) |};
     hgnc := Str "HGNC:1100" |}.

Definition abc2_resolved : annotated_row :=
  {| issue := abc2_issue; hgnc := Str "-" |}.

Definition missing_flagged_row : sambamba_row :=
  {| GeneSymbol_Accession := ReadNaN;
     FullPosition := Str "chr17:41196312-41197819";
     percentage30 := Num (80 # 1) |}.

(** * Properties *)

(** ** Numbers *)

Lemma ne_100_iff (x : number) : ne_100 x = true <-> ~ is_100 x.
Proof.
  destruct x as [q | ]; simpl.
  - rewrite negb_true_iff, <- not_true_iff_false, Qeq_bool_iff. tauto.
  - tauto.
Qed.

(** ** [find_coverage_issues] *)

Lemma issues_loop (coverage_df : list coverage_row) (issues_df : list issue_row) :
  fold_left
    (fun issues_df row =>
       if ne_100 (percentage30 (sambamba row))
       then issues_df ++ [new_issue row]
       else issues_df)
    coverage_df issues_df
  = issues_df ++ map new_issue (filter flagged coverage_df).
Proof.
  revert issues_df.
  induction coverage_df as [ | row rest IH]; intros issues_df; simpl.
  - now rewrite app_nil_r.
  - rewrite IH. unfold flagged.
    destruct (ne_100 (percentage30 (sambamba row))); simpl.
    + now rewrite <- app_assoc.
    + reflexivity.
Qed.

Lemma find_coverage_issues_filter (coverage_df : list coverage_row) :
  find_coverage_issues coverage_df
  = map new_issue (filter flagged coverage_df).
Proof.
  unfold find_coverage_issues. exact (issues_loop coverage_df []).
Qed.

Lemma length_filter_count {A : Type} (p : A -> bool) (l : list A) :
  length (filter p l) = count p l.
Proof.
  induction l as [ | x r IH]; simpl; [reflexivity | ].
  destruct (p x); simpl; now rewrite IH.
Qed.

(** C4: the issue filter returns exactly the rows of the report whose
    coverage at 30x is not 100, in the order of the report (the test of
    the loop holds exactly of the percentages that are not 100), each
    with the gene symbol, the accession, the position and the percentage
    of the row of the report it comes from: every row it returns has a
    percentage other than 100, every row of the report with such a
    percentage is returned, the number of rows returned is the number
    of rows of the report whose percentage is not 100, and a report with
    no such row gives the empty frame. *)
Theorem find_coverage_issues_exact (coverage_df : list coverage_row) :
  find_coverage_issues coverage_df
  = map (fun row =>
           {| gene := GeneSymbol row;
              accession := Accession row;
              exon_position := FullPosition (sambamba row);
              percent_x30 := percentage30 (sambamba row) |})
        (filter (fun row => ne_100 (percentage30 (sambamba row))) coverage_df)
  /\ Forall2
       (fun (row : coverage_row) (r : issue_row) =>
          gene r = GeneSymbol row
          /\ accession r = Accession row
          /\ exon_position r = FullPosition (sambamba row)
          /\ percent_x30 r = percentage30 (sambamba row))
       (filter flagged coverage_df) (find_coverage_issues coverage_df)
  /\ (forall row, flagged row = true <-> ~ is_100 (percentage30 (sambamba row)))
  /\ (forall r, In r (find_coverage_issues coverage_df) ->
        ~ is_100 (percent_x30 r))
  /\ (forall row, In row coverage_df ->
        ~ is_100 (percentage30 (sambamba row)) ->
        exists r, In r (find_coverage_issues coverage_df)
                  /\ gene r = GeneSymbol row
                  /\ accession r = Accession row
                  /\ exon_position r = FullPosition (sambamba row)
                  /\ percent_x30 r = percentage30 (sambamba row))
  /\ length (find_coverage_issues coverage_df) = count flagged coverage_df
  /\ ((forall row, In row coverage_df -> is_100 (percentage30 (sambamba row)))
      -> find_coverage_issues coverage_df = []).
Proof.
  rewrite find_coverage_issues_filter.
  split; [reflexivity | ].
  split.
  { induction (filter flagged coverage_df) as [ | row rest IH]; simpl;
      constructor; [now repeat split | exact IH]. }
  split; [intros row; apply ne_100_iff | ].
  split; [ | split; [ | split]].
  - intros r Hr. apply in_map_iff in Hr as (row & <- & Hrow).
    apply filter_In in Hrow as [_ Hflag]. simpl.
    now apply ne_100_iff.
  - intros row Hin Hne. exists (new_issue row).
    split; [ | now repeat split].
    apply in_map, filter_In. split; [exact Hin | ].
    now apply ne_100_iff.
  - rewrite length_map. apply length_filter_count.
  - intros Hall.
    induction coverage_df as [ | row rest IH]; simpl; [reflexivity | ].
    assert (Hrow : flagged row = false).
    { apply not_true_iff_false. intros Hf. apply ne_100_iff in Hf.
      apply Hf, Hall. now left. }
    rewrite Hrow. apply IH. intros r Hr. apply Hall. now right.
Qed.

(** ** [unique_gene_list] *)

Lemma existsb_eqb_In (x : string) (l : list string) :
  existsb (String.eqb x) l = true <-> In x l.
Proof.
  rewrite existsb_exists. split.
  - intros (y & Hy & Heq). apply String.eqb_eq in Heq. now subst.
  - intros Hin. exists x. split; [exact Hin | apply String.eqb_refl].
Qed.

Lemma filter_filter {A : Type} (p q : A -> bool) (l : list A) :
  filter p (filter q l) = filter (fun x => q x && p x) l.
Proof.
  induction l as [ | x r IH]; simpl; [reflexivity | ].
  destruct (q x); simpl; [destruct (p x) | ]; now rewrite IH.
Qed.

(** The loop started with the list [seen] already built: what it adds
    are the first occurrences of the new strings. *)
Lemma problem_genes_loop (ids seen : list string) :
  fold_left
    (fun problem_genes id =>
       if existsb (String.eqb id) problem_genes
       then problem_genes
       else problem_genes ++ [id])
    ids seen
  = seen ++ filter (fun y => negb (existsb (String.eqb y) seen))
                   (first_occurrences ids).
Proof.
  revert seen.
  induction ids as [ | x r IH]; intros seen; simpl.
  - now rewrite app_nil_r.
  - rewrite IH. destruct (existsb (String.eqb x) seen) eqn:Hx; simpl.
    + f_equal. rewrite filter_filter. apply filter_ext. intros y.
      destruct (String.eqb y x) eqn:Hyx; simpl; [ | reflexivity].
      apply String.eqb_eq in Hyx. subst y. now rewrite Hx.
    + rewrite <- app_assoc. simpl. f_equal. f_equal.
      rewrite filter_filter. apply filter_ext. intros y.
      rewrite existsb_app. simpl. rewrite orb_false_r, negb_orb.
      apply andb_comm.
Qed.

Lemma fold_left_map {A B C : Type} (f : C -> B -> C) (g : A -> B)
    (l : list A) (c : C) :
  fold_left (fun acc x => f acc (g x)) l c = fold_left f (map g l) c.
Proof.
  revert c. induction l as [ | x r IH]; intros c; simpl; [reflexivity | apply IH].
Qed.

Lemma unique_gene_list_first_occurrences (issues_df : list annotated_row) :
  unique_gene_list issues_df = first_occurrences (map identifier issues_df).
Proof.
  unfold unique_gene_list.
  rewrite (fold_left_map
             (fun problem_genes id =>
                if existsb (String.eqb id) problem_genes
                then problem_genes
                else problem_genes ++ [id]) identifier).
  rewrite problem_genes_loop. simpl.
  induction (first_occurrences (map identifier issues_df)) as [ | x r IH];
    simpl; [reflexivity | now rewrite IH].
Qed.

Lemma first_occurrences_In (l : list string) (x : string) :
  In x (first_occurrences l) <-> In x l.
Proof.
  induction l as [ | y r IH]; simpl; [tauto | ].
  rewrite filter_In, IH, negb_true_iff, String.eqb_neq.
  destruct (String.eqb_spec x y) as [-> | Hne]; [tauto | ].
  split; [intros [H | [H _]]; auto | intros [H | H]; auto].
Qed.

Lemma first_occurrences_NoDup (l : list string) : NoDup (first_occurrences l).
Proof.
  induction l as [ | y r IH]; simpl; constructor.
  - rewrite filter_In, String.eqb_refl. simpl. intros [_ H]. discriminate.
  - now apply NoDup_filter.
Qed.

(** C5: the deduplicator returns the lines of the rows, each one once.
    The line of a row is its gene symbol, a tab, its accession, a tab
    and its identifier, a text written as it is (a missing value is
    written nan, and [None] is written None).  No line occurs twice in
    the list, a line is in the list exactly when it is the line of some
    row, the lines stand in the order of their first occurrence, and a
    further row adds its line at the end when, and only when, it was
    not yet in the list. *)
Theorem unique_gene_list_unique (issues_df : list annotated_row) :
  let written := fun c : cell =>
                   match c with
                   | Str s => s
                   | NaN => "nan"
                   | PyNone => "None"
                   end in
  let line := fun row : annotated_row =>
                (written (gene row)
                 ++ String "009" (written (accession row)
                                  ++ String "009" (written (hgnc row))))%string in
  NoDup (unique_gene_list issues_df)
  /\ (forall s, In s (unique_gene_list issues_df)
                <-> exists row, In row issues_df /\ line row = s)
  /\ unique_gene_list issues_df = first_occurrences (map line issues_df)
  /\ (forall row,
        unique_gene_list (issues_df ++ [row])
        = if in_dec string_dec (line row) (unique_gene_list issues_df)
          then unique_gene_list issues_df
          else unique_gene_list issues_df ++ [line row])
  /\ (forall row g a h,
        In row issues_df ->
        gene row = Str g -> accession row = Str a -> hgnc row = Str h ->
        In (g ++ String "009" (a ++ String "009" h))%string
           (unique_gene_list issues_df)).
Proof.
  intros written line.
  assert (Hline : forall row, identifier row = line row) by reflexivity.
  assert (Hmap : map identifier issues_df = map line issues_df).
  { apply map_ext. exact Hline. }
  assert (Hin : forall s, In s (unique_gene_list issues_df)
                          <-> exists row, In row issues_df /\ line row = s).
  { intros s. rewrite unique_gene_list_first_occurrences, first_occurrences_In.
    rewrite in_map_iff. split; intros (row & H1 & H2); exists row;
      rewrite ?Hline, <- ?Hline in *; tauto. }
  split; [ | split; [exact Hin | split; [ | split]]].
  - rewrite unique_gene_list_first_occurrences. apply first_occurrences_NoDup.
  - rewrite <- Hmap. apply unique_gene_list_first_occurrences.
  - intros row. rewrite <- Hline.
    unfold unique_gene_list at 1. rewrite fold_left_app. simpl.
    fold (unique_gene_list issues_df).
    destruct (in_dec string_dec (identifier row) (unique_gene_list issues_df))
      as [Hi | Hout].
    + apply existsb_eqb_In in Hi. now rewrite Hi.
    + destruct (existsb (String.eqb (identifier row)) (unique_gene_list issues_df))
        eqn:Hex; [ | reflexivity].
      apply existsb_eqb_In in Hex. contradiction.
  - intros row g a h Hrow Hg Ha Hh. apply Hin. exists row.
    split; [exact Hrow | ]. unfold line, written. now rewrite Hg, Ha, Hh.
Qed.

(** ** Text: substrings and the two searches *)

Lemma prefix_occurs (x s : string) :
  String.prefix x s = true <-> exists v, s = (x ++ v)%string.
Proof.
  revert s. induction x as [ | a x IH]; intros s.
  - split; [intros _; now exists s | intros _; now destruct s].
  - destruct s as [ | b s]; simpl.
    + split; [discriminate | intros (v & Hv); discriminate].
    + destruct (Ascii.ascii_dec a b) as [<- | Hne].
      * rewrite IH. split; intros (v & Hv); exists v; congruence.
      * split; [discriminate | intros (v & Hv); congruence].
Qed.

Lemma is_substring_occurs (x s : string) :
  is_substring x s = true <-> occurs_in x s.
Proof.
  unfold occurs_in. induction s as [ | b s IH].
  - cbn [is_substring]. rewrite orb_false_r, prefix_occurs. split.
    + intros (v & Hv). now exists "", v.
    + intros (u & v & H). destruct u; [now exists v | discriminate].
  - cbn [is_substring]. rewrite orb_true_iff, IH, prefix_occurs. split.
    + intros [(v & Hv) | (u & v & H)].
      * now exists "", v.
      * exists (String b u), v. simpl. now rewrite H.
    + intros (u & v & H). destruct u as [ | c u]; simpl in H.
      * left. now exists v.
      * right. exists u, v. congruence.
Qed.

Lemma has_char_app (c : ascii) (u v : string) :
  has_char c (u ++ v) = has_char c u || has_char c v.
Proof.
  induction u as [ | a u IH]; simpl; [reflexivity | ].
  now rewrite IH, orb_assoc.
Qed.

Section Search.

Variable look : string -> bool.

(** A run found at the start of [s] is followed by what the lookahead
    accepts, and holds no line feed. *)
Lemma lazy_run_sound (s m : string) :
  lazy_run look s = Some m ->
  exists rest, s = (m ++ rest)%string /\ look rest = true
               /\ has_char nl m = false.
Proof.
  revert m. induction s as [ | c s IH]; intros m; simpl.
  - destruct (look "") eqn:Hl; [ | discriminate].
    intros [= <-]. now exists "".
  - destruct (look (String c s)) eqn:Hl.
    + intros [= <-]. now exists (String c s).
    + destruct (Ascii.eqb c nl) eqn:Hc; [discriminate | ].
      destruct (lazy_run look s) as [m' | ] eqn:Hm; [ | discriminate].
      intros [= <-]. destruct (IH m' eq_refl) as (rest & -> & Hrest & Hnl).
      exists rest. simpl. now rewrite Hc, Hnl.
Qed.

(** The run stops at the first place the lookahead accepts. *)
Lemma lazy_run_first (m rest : string) :
  has_char nl m = false ->
  look rest = true ->
  (forall u v, m = (u ++ v)%string -> v <> "" -> look (v ++ rest) = false) ->
  lazy_run look (m ++ rest) = Some m.
Proof.
  intros Hnl Hrest. induction m as [ | c m IH]; intros Hfirst.
  - simpl. destruct rest; simpl; now rewrite Hrest.
  - simpl in Hnl. apply orb_false_iff in Hnl as [Hc Hnl].
    cbn [append lazy_run].
    change (String c (m ++ rest)%string) with (String c m ++ rest)%string.
    rewrite (Hfirst "" (String c m) eq_refl) by discriminate.
    rewrite Hc, IH; [reflexivity | exact Hnl | ].
    intros u v -> Hv. apply (Hfirst (String c u) v); [reflexivity | exact Hv].
Qed.

Lemma re_search_start (s m : string) :
  lazy_run look s = Some m -> re_search look s = Some m.
Proof.
  intros H. destruct s; simpl in *; now rewrite H.
Qed.

(** What the search returns lies in the text, followed by what the
    lookahead accepts. *)
Lemma re_search_sound (s m : string) :
  re_search look s = Some m ->
  exists skipped rest,
    s = (skipped ++ m ++ rest)%string /\ look rest = true
    /\ has_char nl m = false.
Proof.
  revert m. induction s as [ | c s IH]; intros m; cbn [re_search].
  - destruct (lazy_run look "") as [m' | ] eqn:Hm; [ | discriminate].
    intros [= <-]. apply lazy_run_sound in Hm as (rest & H1 & H2 & H3).
    now exists "", rest.
  - destruct (lazy_run look (String c s)) as [m' | ] eqn:Hm.
    + intros [= <-]. apply lazy_run_sound in Hm as (rest & H1 & H2 & H3).
      now exists "", rest.
    + intros H. apply IH in H as (skipped & rest & -> & H2 & H3).
      now exists (String c skipped), rest.
Qed.

(** The search finds nothing only when the lookahead accepts at no
    position of the text. *)
Lemma re_search_None (s : string) :
  re_search look s = None ->
  forall u v, s = (u ++ v)%string -> look v = false.
Proof.
  induction s as [ | c s IH]; cbn [re_search].
  - destruct (lazy_run look "") eqn:Hm; [discriminate | ].
    intros _ u v H. destruct u; [ | discriminate]. simpl in H. subst v.
    simpl in Hm. destruct (look ""); [discriminate | reflexivity].
  - destruct (lazy_run look (String c s)) eqn:Hm; [discriminate | ].
    intros H u v Huv. destruct u as [ | a u]; simpl in Huv.
    + subst v. simpl in Hm. destruct (look (String c s)); [discriminate | reflexivity].
    + injection Huv as _ Huv. exact (IH H u v Huv).
Qed.

End Search.

(** What the two lookaheads accept. *)

Lemma literal_sound (l : string) (k : string -> bool) (s : string) :
  literal l k s = true -> exists r, s = (l ++ r)%string /\ k r = true.
Proof.
  revert s. induction l as [ | a l IH]; intros s; simpl.
  - intros H. now exists s.
  - destruct s as [ | c s]; [discriminate | ].
    intros H. apply andb_true_iff in H as [Hc H].
    apply Ascii.eqb_eq in Hc. subst c.
    apply IH in H as (r & -> & Hr). now exists r.
Qed.

Lemma any_char_sound (k : string -> bool) (s : string) :
  any_char k s = true ->
  exists c r, s = String c r /\ c <> nl /\ k r = true.
Proof.
  destruct s as [ | c s]; simpl; [discriminate | ].
  intros H. apply andb_true_iff in H as [Hc H].
  exists c, s. repeat split; [ | exact H].
  apply negb_true_iff, Ascii.eqb_neq in Hc. exact Hc.
Qed.

Lemma at_end_sound (s : string) :
  at_end s = true -> s = "" \/ s = String nl "".
Proof.
  destruct s as [ | c [ | d s]]; simpl; [now left | | discriminate].
  intros H. apply Ascii.eqb_eq in H. subst c. now right.
Qed.

Lemma dot_ahead_sound (s : string) :
  dot_ahead s = true -> exists r, s = String "." r.
Proof.
  intros H. apply literal_sound in H as (r & -> & _). now exists r.
Qed.

Lemma suffix_ahead_sound (s : string) :
  suffix_ahead s = true ->
  exists c1 c2 e,
    s = String c1 ("sambamba_output" ++ String c2 ("txt" ++ e))%string
    /\ c1 <> nl /\ c2 <> nl /\ (e = "" \/ e = String nl "").
Proof.
  unfold suffix_ahead. intros H.
  apply any_char_sound in H as (c1 & r1 & -> & Hc1 & H).
  apply literal_sound in H as (r2 & -> & H).
  apply any_char_sound in H as (c2 & r3 & -> & Hc2 & H).
  apply literal_sound in H as (e & -> & H).
  apply at_end_sound in H. now exists c1, c2, e.
Qed.

Lemma length_append (u v : string) :
  String.length (u ++ v) = String.length u + String.length v.
Proof.
  induction u as [ | a u IH]; simpl; [reflexivity | now rewrite IH].
Qed.

Lemma append_assoc (u v w : string) :
  (u ++ v ++ w)%string = ((u ++ v) ++ w)%string.
Proof.
  induction u as [ | a u IH]; simpl; [reflexivity | now rewrite IH].
Qed.

(** The text before the first dot is what the search for [(.*?)(?=\.)]
    returns, when no line feed stands in it. *)
Lemma dot_search_prefix (p rest : string) :
  has_char "." p = false ->
  has_char nl p = false ->
  re_search dot_ahead (p ++ String "." rest) = Some p.
Proof.
  intros Hdot Hnl. apply re_search_start, lazy_run_first.
  - exact Hnl.
  - reflexivity.
  - intros u v -> Hv. destruct v as [ | c v]; [contradiction | ].
    rewrite has_char_app in Hdot. apply orb_false_iff in Hdot as [_ Hdot].
    simpl in Hdot. apply orb_false_iff in Hdot as [Hc _].
    simpl. unfold dot_ahead. simpl. now rewrite Hc.
Qed.

(** A text with no dot gives no match. *)
Lemma dot_search_none (s : string) :
  has_char "." s = false -> re_search dot_ahead s = None.
Proof.
  intros Hdot. destruct (re_search dot_ahead s) as [m | ] eqn:Hm; [ | reflexivity].
  apply re_search_sound in Hm as (skipped & rest & -> & Hrest & _).
  apply dot_ahead_sound in Hrest as (r & ->).
  rewrite !has_char_app in Hdot. simpl in Hdot.
  rewrite !orb_true_r in Hdot. discriminate.
Qed.

(** The text before the suffix is what the search for
    [(.*?)(?=.sambamba_output.txt$)] returns, when no line feed stands
    in it. *)
Lemma suffix_search_prefix (p : string) :
  has_char nl p = false ->
  re_search suffix_ahead (p ++ ".sambamba_output.txt") = Some p.
Proof.
  intros Hnl. apply re_search_start, lazy_run_first.
  - exact Hnl.
  - reflexivity.
  - intros u v _ Hv.
    destruct (suffix_ahead (v ++ ".sambamba_output.txt")) eqn:H; [ | reflexivity].
    exfalso. destruct v as [ | a [ | b v]]; [contradiction | | ].
    + simpl in H. unfold suffix_ahead in H. simpl in H.
      rewrite andb_false_r in H. discriminate.
    + apply suffix_ahead_sound in H as (c1 & c2 & e & H & _ & _ & He).
      apply (f_equal String.length) in H.
      cbn [append String.length] in H. rewrite !length_append in H.
      destruct He as [-> | ->]; simpl in H; lia.
Qed.

(** A path that does not end like the suffix gives no match. *)
Lemma suffix_search_none (path : string) :
  ~ ends_like_suffix path -> re_search suffix_ahead path = None.
Proof.
  intros Hno.
  destruct (re_search suffix_ahead path) as [m | ] eqn:Hm; [ | reflexivity].
  exfalso. apply Hno.
  apply re_search_sound in Hm as (skipped & rest & -> & Hrest & _).
  apply suffix_ahead_sound in Hrest as (c1 & c2 & e & -> & H1 & H2 & He).
  exists (skipped ++ m)%string, c1, c2, e.
  repeat split; try assumption. apply append_assoc.
Qed.

(** ** [get_hgncs]: the lookup *)

Lemma cell_eq_str_iff (x : cell) (p : string) :
  cell_eq_str x p = true <-> x = Str p.
Proof.
  destruct x as [s | | ]; simpl.
  - rewrite String.eqb_eq. split; congruence.
  - split; discriminate.
  - split; discriminate.
Qed.

Lemma cell_eq_str_false (x : cell) (p : string) :
  x <> Str p -> cell_eq_str x p = false.
Proof.
  intros H. apply not_true_iff_false. now rewrite cell_eq_str_iff.
Qed.

Lemma index_where_none {A : Type} (mask : A -> bool) (i : nat) (df : list A) :
  (forall x, In x df -> mask x = false) -> index_where mask i df = [].
Proof.
  revert i. induction df as [ | r rest IH]; intros i H; simpl; [reflexivity | ].
  rewrite (H r) by now left. apply IH. intros x Hx. apply H. now right.
Qed.

Lemma index_where_first {A : Type} (mask : A -> bool) (i : nat)
    (before after : list A) (e : A) :
  (forall x, In x before -> mask x = false) ->
  mask e = true ->
  index_where mask i (before ++ e :: after)
  = (i + length before) :: index_where mask (S (i + length before)) after.
Proof.
  revert i. induction before as [ | r rest IH]; intros i H He; simpl.
  - rewrite He. now rewrite Nat.add_0_r.
  - rewrite (H r) by now left. rewrite IH; [ | | exact He].
    + now rewrite Nat.add_succ_r.
    + intros x Hx. apply H. now right.
Qed.

Lemma loc_middle (before after : list HGNC.row) (e : HGNC.row) :
  loc (before ++ e :: after) (length before) = Ok e.
Proof.
  unfold loc. rewrite nth_error_app2 by lia. now rewrite Nat.sub_diag.
Qed.

Lemma try_body_first (before after : list HGNC.row) (e : HGNC.row)
    (g a : cell) (p : string) :
  (forall x, In x before -> HGNC.refseq x <> Str p) ->
  HGNC.refseq e = Str p ->
  try_body (before ++ e :: after) g a p = checked_hgnc e g a.
Proof.
  intros Hbefore He. unfold try_body.
  rewrite index_where_first.
  - simpl. now rewrite loc_middle.
  - intros x Hx. apply cell_eq_str_false. now apply Hbefore.
  - now apply cell_eq_str_iff.
Qed.

Lemma try_body_miss (hgnc_df : list HGNC.row) (g a : cell) (p : string) :
  (forall x, In x hgnc_df -> HGNC.refseq x <> Str p) ->
  try_body hgnc_df g a p = Raise IndexError.
Proof.
  intros H. unfold try_body. rewrite index_where_none; [reflexivity | ].
  intros x Hx. apply cell_eq_str_false. now apply H.
Qed.

(** The assertion raises [TypeError] or [AssertionError], which the
    handler for [IndexError] lets through. *)
Lemma except_checked_hgnc (e : HGNC.row) (g a : cell) :
  except_IndexError (checked_hgnc e g a) = checked_hgnc e g a.
Proof.
  unfold checked_hgnc, py_or, py_in.
  destruct (HGNC.approved e) as [s1 | | ], g as [x | | ]; simpl; try reflexivity.
  destruct (is_substring x s1); simpl; [reflexivity | ].
  destruct (HGNC.previous e) as [s2 | | ]; simpl; try reflexivity.
  destruct (is_substring x s2); simpl; [reflexivity | ].
  destruct (HGNC.aliases e) as [s3 | | ]; simpl; try reflexivity.
  destruct (is_substring x s3); reflexivity.
Qed.

(** The assertion on a row whose three symbol fields are text. *)
Lemma checked_hgnc_text (e : HGNC.row) (g : string) (acc : cell)
    (a b c : string) :
  HGNC.approved e = Str a -> HGNC.previous e = Str b ->
  HGNC.aliases e = Str c ->
  checked_hgnc e (Str g) acc
  = if is_substring g a || is_substring g b || is_substring g c
    then Ok (HGNC.hgnc e)
    else Raise (AssertionError
                  (format_cell acc ++ " wrongly matched to "
                   ++ format_cell (HGNC.hgnc e))%string).
Proof.
  intros Ha Hb Hc. unfold checked_hgnc, py_or, py_in.
  rewrite Ha, Hb, Hc. simpl.
  destruct (is_substring g a); simpl; [reflexivity | ].
  destruct (is_substring g b); simpl; [reflexivity | ].
  destruct (is_substring g c); reflexivity.
Qed.

Lemma hgnc_for_prefix (hgnc_df : list HGNC.row) (row : issue_row)
    (acc p : string) :
  accession row = Str acc ->
  re_search dot_ahead acc = Some p ->
  hgnc_for hgnc_df row
  = except_IndexError (try_body hgnc_df (gene row) (accession row) p).
Proof.
  intros Hacc Hp. unfold hgnc_for. rewrite Hacc. simpl. now rewrite Hp.
Qed.

(** ** [get_hgncs]: the loop *)

Lemma get_hgncs_loop_acc (hgnc_df : list HGNC.row) (rows : list issue_row)
    (hgncs : list cell) :
  get_hgncs_loop hgnc_df rows hgncs
  = (found <- get_hgncs_loop hgnc_df rows [] ;; Ok (hgncs ++ found)).
Proof.
  revert hgncs. induction rows as [ | row rest IH]; intros hgncs; simpl.
  - now rewrite app_nil_r.
  - destruct (hgnc_for hgnc_df row) as [h | err]; simpl; [ | reflexivity].
    rewrite IH. rewrite (IH [h]).
    destruct (get_hgncs_loop hgnc_df rest []) as [found | err]; simpl;
      [ | reflexivity].
    now rewrite <- app_assoc.
Qed.

Lemma get_hgncs_loop_length (hgnc_df : list HGNC.row) (rows : list issue_row)
    (found : list cell) :
  get_hgncs_loop hgnc_df rows [] = Ok found -> length found = length rows.
Proof.
  revert found. induction rows as [ | row rest IH]; intros found; simpl.
  - now intros [= <-].
  - destruct (hgnc_for hgnc_df row) as [h | err]; simpl; [ | discriminate].
    rewrite get_hgncs_loop_acc.
    destruct (get_hgncs_loop hgnc_df rest []) as [more | err]; simpl;
      [ | discriminate].
    intros [= <-]. simpl. now rewrite (IH more eq_refl).
Qed.

(** The resolver row by row: the identifier of the first row, then the
    rest of the frame. *)
Lemma get_hgncs_cons (hgnc_df : list HGNC.row) (row : issue_row)
    (rest : list issue_row) :
  get_hgncs hgnc_df (row :: rest)
  = (h <- hgnc_for hgnc_df row ;;
     out <- get_hgncs hgnc_df rest ;;
     Ok ({| issue := row; hgnc := h |} :: out)).
Proof.
  unfold get_hgncs. simpl.
  destruct (hgnc_for hgnc_df row) as [h | err]; simpl; [ | reflexivity].
  rewrite get_hgncs_loop_acc.
  destruct (get_hgncs_loop hgnc_df rest []) as [found | err] eqn:Hloop; simpl;
    [ | reflexivity].
  unfold set_hgnc. simpl.
  apply get_hgncs_loop_length in Hloop. rewrite Hloop, Nat.eqb_refl.
  reflexivity.
Qed.

Lemma get_hgncs_app (hgnc_df : list HGNC.row) (earlier later : list issue_row) :
  get_hgncs hgnc_df (earlier ++ later)
  = (a <- get_hgncs hgnc_df earlier ;;
     b <- get_hgncs hgnc_df later ;;
     Ok (a ++ b)).
Proof.
  induction earlier as [ | row rest IH].
  - simpl. destruct (get_hgncs hgnc_df later); reflexivity.
  - change ((row :: rest) ++ later) with (row :: (rest ++ later)).
    rewrite !get_hgncs_cons, IH.
    destruct (hgnc_for hgnc_df row) as [h | err]; simpl; [ | reflexivity].
    destruct (get_hgncs hgnc_df rest) as [a | err]; simpl; [ | reflexivity].
    destruct (get_hgncs hgnc_df later) as [b | err]; reflexivity.
Qed.

(** A resolution that succeeds returns the rows it was given. *)
Lemma get_hgncs_issue (hgnc_df : list HGNC.row) (issues_df : list issue_row)
    (out : list annotated_row) :
  get_hgncs hgnc_df issues_df = Ok out -> map issue out = issues_df.
Proof.
  revert out. induction issues_df as [ | row rest IH]; intros out.
  - now intros [= <-].
  - rewrite get_hgncs_cons.
    destruct (hgnc_for hgnc_df row) as [h | err]; simpl; [ | discriminate].
    destruct (get_hgncs hgnc_df rest) as [more | err]; simpl; [ | discriminate].
    intros [= <-]. simpl. now rewrite (IH more eq_refl).
Qed.

(** One row that raises aborts the whole resolution. *)
Lemma get_hgncs_aborts (hgnc_df : list HGNC.row) (rows : list issue_row)
    (row : issue_row) (err : exn) :
  In row rows -> hgnc_for hgnc_df row = Raise err ->
  exists err', get_hgncs hgnc_df rows = Raise err'.
Proof.
  intros Hin Hrow. induction rows as [ | r rest IH]; [contradiction | ].
  rewrite get_hgncs_cons. destruct Hin as [-> | Hin].
  - rewrite Hrow. now exists err.
  - destruct (hgnc_for hgnc_df r) as [h | e]; simpl; [ | now exists e].
    destruct (IH Hin) as (err' & ->). now exists err'.
Qed.

(** The first row that raises decides the exception. *)
Lemma get_hgncs_first_failure (hgnc_df : list HGNC.row)
    (earlier later : list issue_row) (row : issue_row) (err : exn) :
  (forall r, In r earlier -> exists h, hgnc_for hgnc_df r = Ok h) ->
  hgnc_for hgnc_df row = Raise err ->
  get_hgncs hgnc_df (earlier ++ row :: later) = Raise err.
Proof.
  intros Hearlier Hrow. induction earlier as [ | r rest IH]; simpl.
  - rewrite get_hgncs_cons, Hrow. reflexivity.
  - rewrite get_hgncs_cons.
    destruct (Hearlier r (or_introl eq_refl)) as (h & ->). simpl.
    rewrite IH; [reflexivity | ]. intros x Hx. apply Hearlier. now right.
Qed.

(** ** [get_hgncs]: the claims *)

(** The outcome for a record is the assertion on the first row whose
    refseq column holds its prefix. *)
Lemma hgnc_for_first_match (before after : list HGNC.row) (e : HGNC.row)
    (row : issue_row) (acc p : string) :
  accession row = Str acc ->
  re_search dot_ahead acc = Some p ->
  (forall x, In x before -> HGNC.refseq x <> Str p) ->
  HGNC.refseq e = Str p ->
  hgnc_for (before ++ e :: after) row
  = checked_hgnc e (gene row) (accession row).
Proof.
  intros Hacc Hp Hbefore He.
  rewrite (hgnc_for_prefix _ _ _ _ Hacc Hp).
  rewrite try_body_first by assumption. apply except_checked_hgnc.
Qed.

(** C2: for a record whose accession gives the prefix [p], the resolver
    takes the first row of the reference table, in file order, whose
    refseq column equals [p]: the rows before it do not match, the rows
    after it are never looked at (other rows with the same prefix
    included), and the outcome is what the assertion on that row alone
    gives, the same as for a table holding that row only. *)
Theorem first_match_wins (before after : list HGNC.row) (e : HGNC.row)
    (row : issue_row) (acc p : string) :
  accession row = Str acc ->
  re_search dot_ahead acc = Some p ->
  (forall x, In x before -> HGNC.refseq x <> Str p) ->
  HGNC.refseq e = Str p ->
  hgnc_for (before ++ e :: after) row
  = checked_hgnc e (gene row) (accession row)
  /\ hgnc_for (before ++ e :: after) row = hgnc_for [e] row.
Proof.
  intros Hacc Hp Hbefore He. split.
  - now apply (hgnc_for_first_match before after e row acc p).
  - rewrite (hgnc_for_first_match before after e row acc p) by assumption.
    symmetry. apply (hgnc_for_first_match [] [] e row acc p); try assumption.
    intros x [].
Qed.

(** Two rows of the table hold the prefix NM_007294; the first one
    decides. *)
Lemma first_match_wins_witness :
  hgnc_for ([tp53_entry] ++ brca1_entry :: [brca1_second_entry]) brca1_issue
  = checked_hgnc brca1_entry (gene brca1_issue) (accession brca1_issue)
  /\ hgnc_for ([tp53_entry] ++ brca1_entry :: [brca1_second_entry]) brca1_issue
     = hgnc_for [brca1_entry] brca1_issue.
Proof.
  apply (first_match_wins [tp53_entry] [brca1_second_entry] brca1_entry
           brca1_issue "NM_007294.4" "NM_007294").
  - reflexivity.
  - reflexivity.
  - intros x [<- | []]. discriminate.
  - reflexivity.
Defined.

(** C3: when no row of the reference table has the extracted prefix in
    its refseq column, the identifier of the record is the text "-", no
    exception is raised for it, and the resolver goes on: the frame it
    returns is that of the records before, this record with "-", and
    that of the records after. *)
Theorem lookup_miss_gives_sentinel (hgnc_df : list HGNC.row)
    (row : issue_row) (acc p : string) :
  accession row = Str acc ->
  re_search dot_ahead acc = Some p ->
  (forall x, In x hgnc_df -> HGNC.refseq x <> Str p) ->
  hgnc_for hgnc_df row = Ok (Str "-")
  /\ forall earlier later,
       get_hgncs hgnc_df (earlier ++ row :: later)
       = (a <- get_hgncs hgnc_df earlier ;;
          b <- get_hgncs hgnc_df later ;;
          Ok (a ++ {| issue := row; hgnc := Str "-" |} :: b)).
Proof.
  intros Hacc Hp Hmiss.
  assert (Hrow : hgnc_for hgnc_df row = Ok (Str "-")).
  { rewrite (hgnc_for_prefix _ _ _ _ Hacc Hp).
    now rewrite try_body_miss by assumption. }
  split; [exact Hrow | ].
  intros earlier later. rewrite get_hgncs_app, get_hgncs_cons, Hrow. simpl.
  destruct (get_hgncs hgnc_df earlier) as [a | err]; simpl; [ | reflexivity].
  destruct (get_hgncs hgnc_df later) as [b | err]; reflexivity.
Qed.

(** No row of the table holds the prefix NM_000111. *)
Lemma lookup_miss_gives_sentinel_witness :
  hgnc_for [tp53_entry; brca1_entry] abc2_issue = Ok (Str "-")
  /\ forall earlier later,
       get_hgncs [tp53_entry; brca1_entry] (earlier ++ abc2_issue :: later)
       = (a <- get_hgncs [tp53_entry; brca1_entry] earlier ;;
          b <- get_hgncs [tp53_entry; brca1_entry] later ;;
          Ok (a ++ {| issue := abc2_issue; hgnc := Str "-" |} :: b)).
Proof.
  apply (lookup_miss_gives_sentinel [tp53_entry; brca1_entry] abc2_issue
           "NM_000111.2" "NM_000111").
  - reflexivity.
  - reflexivity.
  - intros x [<- | [<- | []]]; discriminate.
Defined.

(** C10: when the resolver succeeds, the frame it returns has the rows
    of the frame it was given, in the same order and as many; the gene,
    accession, exon position and percentage of every row are unchanged,
    and each row has gained one identifier in the new column [hgnc], the
    one the loop computed for it. *)
Theorem get_hgncs_keeps_rows (hgnc_df : list HGNC.row)
    (issues_df : list issue_row) (out : list annotated_row) :
  get_hgncs hgnc_df issues_df = Ok out ->
  map issue out = issues_df
  /\ length out = length issues_df
  /\ Forall2
       (fun (given : issue_row) (returned : annotated_row) =>
          gene returned = gene given
          /\ accession returned = accession given
          /\ exon_position returned = exon_position given
          /\ percent_x30 returned = percent_x30 given
          /\ hgnc_for hgnc_df given = Ok (hgnc returned))
       issues_df out.
Proof.
  revert out. induction issues_df as [ | row rest IH]; intros out.
  - intros [= <-]. repeat split. constructor.
  - rewrite get_hgncs_cons.
    destruct (hgnc_for hgnc_df row) as [h | err] eqn:Hrow; simpl;
      [ | discriminate].
    destruct (get_hgncs hgnc_df rest) as [more | err]; simpl; [ | discriminate].
    intros [= <-]. destruct (IH more eq_refl) as (Hmap & Hlen & Hall).
    simpl. rewrite Hmap, Hlen. repeat split.
    constructor; [ | exact Hall]. simpl. now repeat split.
Qed.

(** A frame of two records, one found and one not. *)
Lemma get_hgncs_keeps_rows_witness :
  map issue [ {| issue := brca1_issue; hgnc := Str "HGNC:1100" |};
              {| issue := abc2_issue; hgnc := Str "-" |} ]
  = [brca1_issue; abc2_issue]
  /\ length [ {| issue := brca1_issue; hgnc := Str "HGNC:1100" |};
              {| issue := abc2_issue; hgnc := Str "-" |} ]
     = length [brca1_issue; abc2_issue]
  /\ Forall2
       (fun (given : issue_row) (returned : annotated_row) =>
          gene returned = gene given
          /\ accession returned = accession given
          /\ exon_position returned = exon_position given
          /\ percent_x30 returned = percent_x30 given
          /\ hgnc_for [brca1_entry] given = Ok (hgnc returned))
       [brca1_issue; abc2_issue]
       [ {| issue := brca1_issue; hgnc := Str "HGNC:1100" |};
         {| issue := abc2_issue; hgnc := Str "-" |} ].
Proof.
  apply (get_hgncs_keeps_rows [brca1_entry] [brca1_issue; abc2_issue]).
  reflexivity.
Defined.

(** C1 (amended): for a record whose accession prefix is found in the
    reference table, at a row whose approved, previous and alias fields
    are text, the resolver tests whether the gene symbol occurs as a
    contiguous run of characters in one of the three texts.  When it
    does, the identifier of that row is assigned.  When it occurs in
    none, the record raises [AssertionError] with the message
    "<accession> wrongly matched to <identifier>", no identifier is
    assigned, and the resolution of any frame holding the record raises:
    with that very exception when the records before it resolve. *)
Theorem wrong_match_raises (before after : list HGNC.row) (e : HGNC.row)
    (row : issue_row) (g acc p a b c : string) :
  gene row = Str g ->
  accession row = Str acc ->
  re_search dot_ahead acc = Some p ->
  (forall x, In x before -> HGNC.refseq x <> Str p) ->
  HGNC.refseq e = Str p ->
  HGNC.approved e = Str a ->
  HGNC.previous e = Str b ->
  HGNC.aliases e = Str c ->
  let hgnc_df := before ++ e :: after in
  (occurs_in g a \/ occurs_in g b \/ occurs_in g c ->
   hgnc_for hgnc_df row = Ok (HGNC.hgnc e))
  /\ (~ occurs_in g a -> ~ occurs_in g b -> ~ occurs_in g c ->
      let err :=
        AssertionError
          (acc ++ " wrongly matched to " ++ format_cell (HGNC.hgnc e))%string in
      hgnc_for hgnc_df row = Raise err
      /\ (forall rows, In row rows ->
            exists err', get_hgncs hgnc_df rows = Raise err')
      /\ (forall earlier later,
            (forall r, In r earlier -> exists h, hgnc_for hgnc_df r = Ok h) ->
            get_hgncs hgnc_df (earlier ++ row :: later) = Raise err)).
Proof.
  intros Hg Hacc Hp Hbefore He Ha Hb Hc hgnc_df.
  assert (Hrow : hgnc_for hgnc_df row
                 = if is_substring g a || is_substring g b || is_substring g c
                   then Ok (HGNC.hgnc e)
                   else Raise (AssertionError
                                 (acc ++ " wrongly matched to "
                                  ++ format_cell (HGNC.hgnc e))%string)).
  { unfold hgnc_df.
    rewrite (hgnc_for_first_match before after e row acc p Hacc Hp Hbefore He).
    rewrite Hg, Hacc. now rewrite (checked_hgnc_text e g (Str acc) a b c). }
  split.
  - intros Hin. rewrite Hrow.
    destruct Hin as [H | [H | H]]; apply is_substring_occurs in H;
      rewrite H, ?orb_true_r; reflexivity.
  - intros Hna Hnb Hnc err.
    rewrite <- is_substring_occurs in Hna, Hnb, Hnc.
    apply not_true_iff_false in Hna, Hnb, Hnc.
    rewrite Hna, Hnb, Hnc in Hrow. simpl in Hrow. fold err in Hrow.
    split; [exact Hrow | split].
    + intros rows Hin. exact (get_hgncs_aborts hgnc_df rows row err Hin Hrow).
    + intros earlier later Hearlier.
      now apply get_hgncs_first_failure.
Qed.

(** BRCA1 passes the assertion on the row of BRCA1; TP53, matched to
    that row by its accession, does not. *)
Lemma wrong_match_raises_witness :
  hgnc_for ([tp53_entry] ++ brca1_entry :: [brca1_second_entry]) brca1_issue
  = Ok (Str "HGNC:1100")
  /\ hgnc_for ([tp53_entry] ++ brca1_entry :: [brca1_second_entry]) tp53_issue
     = Raise (AssertionError "NM_007294.4 wrongly matched to HGNC:1100").
Proof.
  split.
  - apply (wrong_match_raises [tp53_entry] [brca1_second_entry] brca1_entry
             brca1_issue "BRCA1" "NM_007294.4" "NM_007294"
             "BRCA1" "BRCA1L" "FANCS");
      try reflexivity.
    + intros x [<- | []]. discriminate.
    + left. now exists "", "".
  - apply (wrong_match_raises [tp53_entry] [brca1_second_entry] brca1_entry
             tp53_issue "TP53" "NM_007294.4" "NM_007294"
             "BRCA1" "BRCA1L" "FANCS");
      try reflexivity.
    + intros x [<- | []]. discriminate.
    + intros H. apply is_substring_occurs in H. discriminate.
    + intros H. apply is_substring_occurs in H. discriminate.
    + intros H. apply is_substring_occurs in H. discriminate.
Defined.

(** C1 as stated fails: CS is neither the approved symbol BRCA1, nor
    the previous symbol BRCA1L, nor the alias FANCS of the row its
    accession prefix finds, and yet no exception is raised: CS occurs
    inside FANCS, and the record is given the identifier of BRCA1. *)
Lemma substring_of_alias_passes :
  gene cs_issue = Str "CS"
  /\ HGNC.approved brca1_entry = Str "BRCA1"
  /\ HGNC.previous brca1_entry = Str "BRCA1L"
  /\ HGNC.aliases brca1_entry = Str "FANCS"
  /\ "CS" <> "BRCA1" /\ "CS" <> "BRCA1L" /\ "CS" <> "FANCS"
  /\ get_hgncs [brca1_entry] [cs_issue]
     = Ok [ {| issue := cs_issue; hgnc := Str "HGNC:1100" |} ].
Proof.
  repeat split; discriminate.
Qed.

(** C9: at the row the HGNC site gives for BRCA1, whose field of
    previous symbols is empty, a gene symbol that occurs in the alias
    field does not pass the validation: the test on the empty field
    comes first and raises [TypeError], and the run is aborted. *)
Theorem alias_match_after_empty_field_raises :
  is_substring "FANCS" "IRIS, PSCP, BRCAI, BRCC1, FANCS, PNCA4, PPP1R53" = true
  /\ HGNC.previous brca1_site_entry = NaN
  /\ hgnc_for [brca1_site_entry] fancs_issue = Raise TypeError
  /\ get_hgncs [brca1_site_entry] [fancs_issue] = Raise TypeError.
Proof.
  repeat split.
Qed.

(** X17 (line 99): for a record whose accession is a text with no line
    feed before its first dot, the prefix the resolver looks up is the
    text before that first dot.  For a record whose accession holds no
    dot, the record raises [AttributeError], no identifier (the
    sentinel included) is assigned, and the resolution of any frame
    holding the record raises: with that very exception when the
    records before it resolve. *)
Theorem accession_prefix (hgnc_df : list HGNC.row) (row : issue_row)
    (acc : string) :
  accession row = Str acc ->
  (forall p rest,
     acc = (p ++ String "." rest)%string ->
     has_char "." p = false ->
     has_char nl p = false ->
     re_search dot_ahead acc = Some p
     /\ hgnc_for hgnc_df row
        = except_IndexError (try_body hgnc_df (gene row) (accession row) p))
  /\ (has_char "." acc = false ->
      hgnc_for hgnc_df row = Raise AttributeError
      /\ (forall rows, In row rows ->
            exists err, get_hgncs hgnc_df rows = Raise err)
      /\ (forall earlier later,
            (forall r, In r earlier -> exists h, hgnc_for hgnc_df r = Ok h) ->
            get_hgncs hgnc_df (earlier ++ row :: later)
            = Raise AttributeError)).
Proof.
  intros Hacc. split.
  - intros p rest -> Hdot Hnl.
    pose proof (dot_search_prefix p rest Hdot Hnl) as Hp.
    split; [exact Hp | ]. now apply (hgnc_for_prefix hgnc_df row _ p Hacc).
  - intros Hdot.
    assert (Hrow : hgnc_for hgnc_df row = Raise AttributeError).
    { unfold hgnc_for. rewrite Hacc. simpl.
      now rewrite (dot_search_none acc Hdot). }
    split; [exact Hrow | split].
    + intros rows Hin. exact (get_hgncs_aborts hgnc_df rows row _ Hin Hrow).
    + intros earlier later Hearlier. now apply get_hgncs_first_failure.
Qed.

(** An accession with a version, and one without a dot. *)
Lemma accession_prefix_witness :
  (re_search dot_ahead "NM_007294.4" = Some "NM_007294"
   /\ hgnc_for [brca1_entry] brca1_issue
      = except_IndexError
          (try_body [brca1_entry] (gene brca1_issue) (accession brca1_issue)
                    "NM_007294"))
  /\ (hgnc_for [brca1_entry] undotted_issue = Raise AttributeError
      /\ (forall rows, In undotted_issue rows ->
            exists err, get_hgncs [brca1_entry] rows = Raise err)
      /\ (forall earlier later,
            (forall r, In r earlier ->
                       exists h, hgnc_for [brca1_entry] r = Ok h) ->
            get_hgncs [brca1_entry] (earlier ++ undotted_issue :: later)
            = Raise AttributeError)).
Proof.
  split.
  - apply (proj1 (accession_prefix [brca1_entry] brca1_issue "NM_007294.4"
                    eq_refl) "NM_007294" "4"); reflexivity.
  - apply (proj2 (accession_prefix [brca1_entry] undotted_issue "NM_000111"
                    eq_refl)). reflexivity.
Defined.

(** C7: the text before the first dot of this accession is
    "NM_000111", a line feed, "NM_007294", which no row of the
    reference table holds; the resolver looks up "NM_007294" instead,
    what stands between the line feed and the dot, and gives the record
    the identifier of BRCA1, in the resolver and in the whole run. *)
Theorem line_feed_restarts_prefix_search :
  accession folded_issue
  = Str (("NM_000111" ++ String nl "NM_007294") ++ String "." "4")%string
  /\ has_char "." ("NM_000111" ++ String nl "NM_007294") = false
  /\ HGNC.refseq brca1_entry
     <> Str ("NM_000111" ++ String nl "NM_007294")%string
  /\ re_search dot_ahead folded_accession = Some "NM_007294"
  /\ get_hgncs [brca1_entry] [folded_issue]
     = Ok [ {| issue := folded_issue; hgnc := Str "HGNC:1100" |} ]
  /\ exists text,
       main "s1.sambamba_output.txt" [folded_report_row] [brca1_entry]
       = Ok [ ("s1.low_coverage_genes.txt", TextFile text);
              ("s1.low_coverage_gene_exons.xlsx",
               Workbook
                 ["gene"; "accession"; "exon_position"; "percent_x30"; "hgnc"]
                 [ [Text (Str "BRCA1"); Text (Str folded_accession);
                    Text (Str "chr17:41196312-41197819");
                    Number (Num (95 # 1)); Text (Str "HGNC:1100")] ]) ].
Proof.
  split; [reflexivity | ]. split; [reflexivity | ].
  split; [discriminate | ]. split; [reflexivity | ].
  split; [reflexivity | ].
  eexists. reflexivity.
Qed.

(** ** [create_df] *)

Lemma split_once_whole (s : string) :
  has_char ";" s = false -> split_once ";" s = [s].
Proof.
  induction s as [ | c s IH]; simpl; [reflexivity | ].
  intros H. apply orb_false_iff in H as [Hc H].
  rewrite Hc, (IH H). reflexivity.
Qed.

Lemma split_once_two (g a : string) :
  has_char ";" g = false ->
  split_once ";" (g ++ String ";" a) = [g; a].
Proof.
  induction g as [ | c g IH]; simpl; [reflexivity | ].
  intros H. apply orb_false_iff in H as [Hc H].
  rewrite Hc, (IH H). reflexivity.
Qed.

Lemma first_semicolon (s : string) :
  has_char ";" s = true ->
  exists g a, s = (g ++ String ";" a)%string /\ has_char ";" g = false.
Proof.
  induction s as [ | c s IH]; simpl; [discriminate | ].
  destruct (Ascii.eqb c ";") eqn:Hc; simpl.
  - intros _. apply Ascii.eqb_eq in Hc. subst c. now exists "", s.
  - intros H. destruct (IH H) as (g & a & -> & Hg).
    exists (String c g), a. simpl. now rewrite Hc, Hg.
Qed.

Lemma split_once_length (s : string) :
  length (split_once ";" s) = if has_char ";" s then 2 else 1.
Proof.
  destruct (has_char ";" s) eqn:Hs.
  - apply first_semicolon in Hs as (g & a & -> & Hg).
    now rewrite split_once_two.
  - now rewrite split_once_whole.
Qed.

(** The number of columns of the frame the split gives. *)
Lemma width_bounds (split : list (option (list string))) (n : nat) :
  (forall x, In x split -> row_length x <= n) ->
  fold_right (fun x w => Nat.max (row_length x) w) 0 split <= n.
Proof.
  induction split as [ | x rest IH]; intros H; simpl; [lia | ].
  pose proof (H x (or_introl eq_refl)).
  assert (fold_right (fun x w => Nat.max (row_length x) w) 0 rest <= n).
  { apply IH. intros y Hy. apply H. now right. }
  lia.
Qed.

Lemma width_reached (split : list (option (list string)))
    (x : option (list string)) :
  In x split ->
  row_length x <= fold_right (fun x w => Nat.max (row_length x) w) 0 split.
Proof.
  induction split as [ | y rest IH]; intros H; simpl; [contradiction | ].
  destruct H as [-> | H]; [lia | ]. specialize (IH H). lia.
Qed.

Lemma str_split_expand_columns (column : list read_value) :
  str_split_expand column
  = (fst (str_split_expand column),
     map (expand_row (fst (str_split_expand column)))
         (map split_value column)).
Proof. reflexivity. Qed.

Lemma row_length_split (r : sambamba_row) :
  row_length (split_value (GeneSymbol_Accession r))
  = if holds_semicolon r then 2 else 1.
Proof.
  unfold holds_semicolon.
  destruct (GeneSymbol_Accession r) as [s | | q]; simpl; try reflexivity.
  apply split_once_length.
Qed.

Lemma split_width_no_semicolon (file_rows : list sambamba_row) :
  (forall r, In r file_rows -> holds_semicolon r = false) ->
  fst (str_split_expand (map GeneSymbol_Accession file_rows)) <= 1.
Proof.
  intros H. simpl. apply width_bounds. intros x Hx.
  rewrite map_map in Hx. apply in_map_iff in Hx as (r & <- & Hr).
  rewrite row_length_split, (H r Hr). lia.
Qed.

Lemma split_width_semicolon (file_rows : list sambamba_row) :
  (exists r, In r file_rows /\ holds_semicolon r = true) ->
  fst (str_split_expand (map GeneSymbol_Accession file_rows)) = 2.
Proof.
  intros (r & Hr & Hsemi). simpl. apply Nat.le_antisymm.
  - apply width_bounds. intros x Hx.
    rewrite map_map in Hx. apply in_map_iff in Hx as (y & <- & Hy).
    rewrite row_length_split. destruct (holds_semicolon y); lia.
  - pose proof (width_reached
                  (map split_value (map GeneSymbol_Accession file_rows))
                  (split_value (GeneSymbol_Accession r))) as Hw.
    rewrite row_length_split, Hsemi in Hw. apply Hw.
    rewrite map_map. apply in_map_iff. now exists r.
Qed.

Lemma existsb_is_str (file_rows : list sambamba_row) :
  existsb is_str (map GeneSymbol_Accession file_rows) = true
  <-> exists r, In r file_rows /\ holds_text r = true.
Proof.
  rewrite existsb_exists. split.
  - intros (x & Hx & Hstr). apply in_map_iff in Hx as (r & <- & Hr).
    now exists r.
  - intros (r & Hr & Hstr). exists (GeneSymbol_Accession r).
    split; [now apply in_map | exact Hstr].
Qed.

Lemma holds_semicolon_text (r : sambamba_row) :
  holds_semicolon r = true -> holds_text r = true.
Proof.
  unfold holds_semicolon, holds_text.
  now destruct (GeneSymbol_Accession r).
Qed.

(** The accessor on a column that holds a text. *)
Lemma str_accessor_text (file_rows : list sambamba_row) :
  (exists r, In r file_rows /\ holds_text r = true) ->
  str_accessor (map GeneSymbol_Accession file_rows)
  = Ok (map GeneSymbol_Accession file_rows).
Proof.
  intros H. apply existsb_is_str in H. unfold str_accessor.
  destruct (map GeneSymbol_Accession file_rows); [reflexivity | ].
  now rewrite H.
Qed.

(** The rows of the frame once the two columns are set. *)
Lemma split_rows (file_rows : list sambamba_row) :
  Forall2 row_split file_rows
    (map (fun '(r, parts) =>
            {| sambamba := r;
               GeneSymbol := nth 0 parts PyNone;
               Accession := nth 1 parts PyNone |})
         (combine file_rows
            (map (expand_row 2)
               (map split_value
                  (map GeneSymbol_Accession file_rows))))).
Proof.
  induction file_rows as [ | r rest IH]; simpl; constructor; [ | exact IH].
  destruct (GeneSymbol_Accession r) as [s | | q] eqn:Hr; simpl.
  - destruct (has_char ";" s) eqn:Hc.
    + apply first_semicolon in Hc as (g & a & -> & Hg).
      rewrite split_once_two by exact Hg. simpl.
      now apply split_in_two.
    + rewrite split_once_whole by exact Hc. simpl. now apply split_in_one.
  - apply split_missing. unfold holds_text. now rewrite Hr.
  - apply split_missing. unfold holds_text. now rewrite Hr.
Qed.

(** Where some row holds a text with a [;], the loader returns the
    split frame with whatever prefix the search gives, or raises when
    it gives none. *)
Lemma create_df_split (file_rows : list sambamba_row) :
  (exists r, In r file_rows /\ holds_semicolon r = true) ->
  exists coverage_df,
    Forall2 row_split file_rows coverage_df
    /\ forall input_file,
         create_df input_file file_rows
         = (output_prefix <- group (re_search suffix_ahead input_file) ;;
            Ok (output_prefix, coverage_df)).
Proof.
  intros Hsome. eexists. split; [apply split_rows | ].
  intros input_file. unfold create_df.
  rewrite str_accessor_text.
  - cbn [bind]. unfold set_gene_accession.
    rewrite (str_split_expand_columns (map GeneSymbol_Accession file_rows)).
    rewrite (split_width_semicolon file_rows Hsome).
    reflexivity.
  - destruct Hsome as (r & Hr & Hsemi). exists r.
    split; [exact Hr | now apply holds_semicolon_text].
Qed.

(** Where the column holds no text, it is numeric and has no [.str]. *)
Lemma create_df_no_text (input_file : string)
    (file_rows : list sambamba_row) :
  file_rows <> [] ->
  (forall r, In r file_rows -> holds_text r = false) ->
  create_df input_file file_rows = Raise AttributeError.
Proof.
  intros Hrows Hnone. unfold create_df, str_accessor.
  destruct (map GeneSymbol_Accession file_rows) as [ | x column] eqn:Hcol.
  - destruct file_rows; [contradiction | discriminate].
  - destruct (existsb is_str (x :: column)) eqn:Hstr; [ | reflexivity].
    rewrite <- Hcol in Hstr. apply existsb_is_str in Hstr as (r & Hr & Htext).
    rewrite (Hnone r Hr) in Htext. discriminate.
Qed.

(** Where the column is empty, or holds text but no [;], the frame of
    the split has fewer than two columns. *)
Lemma create_df_no_semicolon (input_file : string)
    (file_rows : list sambamba_row) :
  file_rows = [] \/ (exists r, In r file_rows /\ holds_text r = true) ->
  (forall r, In r file_rows -> holds_semicolon r = false) ->
  create_df input_file file_rows = Raise ValueError.
Proof.
  intros Htext Hnone. unfold create_df.
  assert (Hstr : str_accessor (map GeneSymbol_Accession file_rows)
                 = Ok (map GeneSymbol_Accession file_rows)).
  { destruct Htext as [-> | Htext]; [reflexivity | ].
    now apply str_accessor_text. }
  rewrite Hstr. cbn [bind]. unfold set_gene_accession.
  pose proof (split_width_no_semicolon file_rows Hnone) as Hw.
  destruct (Nat.eqb_spec
              (fst (str_split_expand (map GeneSymbol_Accession file_rows))) 2)
    as [H2 | _]; [lia | reflexivity].
Qed.

(** C6 (amended): the loader raises [ValueError] when the report has no
    row and when its combined column holds text but no [;]; it raises
    [AttributeError] when the column holds rows but no text.  When some
    row holds a text with a [;], it raises [AttributeError] for a path
    that does not end like the suffix, and for a path made of a prefix
    without line feed and the suffix [.sambamba_output.txt] it returns
    that prefix and the frame in which every text is split at its first
    [;] into gene symbol and accession; a row whose text holds no [;]
    is kept, its whole value as the gene symbol and [None] as the
    accession, and a row whose value is missing is kept with [nan] for
    both. *)
Theorem create_df_outcomes (input_file : string)
    (file_rows : list sambamba_row) :
  (file_rows = [] -> create_df input_file file_rows = Raise ValueError)
  /\ (file_rows <> [] ->
      (forall r, In r file_rows -> holds_text r = false) ->
      create_df input_file file_rows = Raise AttributeError)
  /\ ((exists r, In r file_rows /\ holds_text r = true) ->
      (forall r, In r file_rows -> holds_semicolon r = false) ->
      create_df input_file file_rows = Raise ValueError)
  /\ ((exists r, In r file_rows /\ holds_semicolon r = true) ->
      (~ ends_like_suffix input_file ->
       create_df input_file file_rows = Raise AttributeError)
      /\ (forall prefix,
            input_file = (prefix ++ ".sambamba_output.txt")%string ->
            has_char nl prefix = false ->
            exists coverage_df,
              create_df input_file file_rows = Ok (prefix, coverage_df)
              /\ Forall2 row_split file_rows coverage_df)).
Proof.
  split; [ | split; [ | split]].
  - intros ->. reflexivity.
  - apply create_df_no_text.
  - intros Htext Hnone. apply create_df_no_semicolon; [now right | exact Hnone].
  - intros Hsome.
    destruct (create_df_split file_rows Hsome) as (coverage_df & Hrows & Hdf).
    split.
    + intros Hpath. now rewrite Hdf, (suffix_search_none input_file Hpath).
    + intros prefix -> Hnl. exists coverage_df. split; [ | exact Hrows].
      now rewrite Hdf, (suffix_search_prefix prefix Hnl).
Qed.

(** An empty report, a column of numbers, a column of text with no [;],
    a path without the suffix, and a report and a path that load. *)
Lemma create_df_outcomes_witness :
  create_df "s1.sambamba_output.txt" [] = Raise ValueError
  /\ create_df "s1.sambamba_output.txt" [digits_report_row; missing_report_row]
     = Raise AttributeError
  /\ create_df "s1.sambamba_output.txt" [unsplit_report_row; missing_report_row]
     = Raise ValueError
  /\ create_df "s1.txt" [brca1_report_row] = Raise AttributeError
  /\ exists coverage_df,
       create_df "s1.sambamba_output.txt"
         [unsplit_report_row; missing_report_row; brca1_report_row]
       = Ok ("s1", coverage_df)
       /\ Forall2 row_split
            [unsplit_report_row; missing_report_row; brca1_report_row]
            coverage_df.
Proof.
  split; [ | split; [ | split; [ | split]]].
  - now apply (proj1 (create_df_outcomes "s1.sambamba_output.txt" [])).
  - apply (proj1 (proj2 (create_df_outcomes "s1.sambamba_output.txt"
                           [digits_report_row; missing_report_row]))).
    + discriminate.
    + intros r [<- | [<- | []]]; reflexivity.
  - apply (proj1 (proj2 (proj2 (create_df_outcomes "s1.sambamba_output.txt"
                                  [unsplit_report_row; missing_report_row])))).
    + exists unsplit_report_row. split; [now left | reflexivity].
    + intros r [<- | [<- | []]]; reflexivity.
  - apply (proj2 (proj2 (proj2 (create_df_outcomes "s1.txt"
                                  [brca1_report_row])))).
    + exists brca1_report_row. split; [now left | reflexivity].
    + intros (p & c1 & c2 & e & H & _).
      apply (f_equal String.length) in H. rewrite length_append in H.
      simpl in H. lia.
  - apply (proj2 (proj2 (proj2
             (create_df_outcomes "s1.sambamba_output.txt"
                [unsplit_report_row; missing_report_row; brca1_report_row])))).
    + exists brca1_report_row. split; [right; right; now left | reflexivity].
    + reflexivity.
    + reflexivity.
Defined.

(** C6 as stated fails: the combined column of the first row holds no
    [;] and cannot be split into two parts, and yet the loader returns:
    the row is kept with [None] as its accession.  Its percentage being
    100, the whole run ends without an exception. *)
Lemma unsplit_row_is_kept :
  GeneSymbol_Accession unsplit_report_row = ReadStr "TP53"
  /\ has_char ";" "TP53" = false
  /\ create_df "s1.sambamba_output.txt" [unsplit_report_row; brca1_report_row]
     = Ok ("s1",
           [ {| sambamba := unsplit_report_row;
                GeneSymbol := Str "TP53"; Accession := PyNone |};
             {| sambamba := brca1_report_row;
                GeneSymbol := Str "BRCA1"; Accession := Str "NM_007294.4" |} ])
  /\ exists files,
       main "s1.sambamba_output.txt" [unsplit_report_row; brca1_report_row]
            [brca1_entry]
       = Ok files.
Proof.
  split; [reflexivity | split; [reflexivity | split; [reflexivity | ]]].
  eexists. reflexivity.
Qed.

(** ** [create_outputs] *)

(** C8: the writer produces two files.  The text file, named after the
    prefix, holds "Sample: <prefix>", an empty line, the line "Genes
    with <100% coverage at 30x:" and the gene list joined by line
    feeds.  The workbook, named after the prefix, has the header gene,
    accession, exon_position, percent_x30, hgnc and, below it, one row
    of these five values per row of the frame, in the order of the
    frame, with no column of row labels.  In a run of the program that
    ends, the gene list is the deduplicated list of the resolved frame,
    and the frame is that of the flagged rows of the report. *)
Theorem create_outputs_files (output_prefix : string)
    (issues_df : list annotated_row) (problem_genes : list string) :
  (exists sheet_rows : list (list value),
     create_outputs output_prefix issues_df problem_genes
     = [ ((output_prefix ++ ".low_coverage_genes.txt")%string,
          TextFile
            ("Sample: " ++ output_prefix ++ String nl (String nl "")
             ++ "Genes with <100% coverage at 30x:" ++ String nl ""
             ++ String.concat (String nl "") problem_genes)%string);
         ((output_prefix ++ ".low_coverage_gene_exons.xlsx")%string,
          Workbook ["gene"; "accession"; "exon_position"; "percent_x30"; "hgnc"]
                   sheet_rows) ]
     /\ length sheet_rows = length issues_df
     /\ Forall2
          (fun (row : annotated_row) (cells : list value) =>
             cells = [Text (gene row); Text (accession row);
                      Text (exon_position row); Number (percent_x30 row);
                      Text (hgnc row)])
          issues_df sheet_rows)
  /\ (forall input_file report hgnc_dump files,
        main input_file report hgnc_dump = Ok files ->
        exists prefix coverage_df resolved,
          create_df input_file report = Ok (prefix, coverage_df)
          /\ get_hgncs hgnc_dump (find_coverage_issues coverage_df)
             = Ok resolved
          /\ map issue resolved = map new_issue (filter flagged coverage_df)
          /\ files
             = create_outputs prefix resolved (unique_gene_list resolved)).
Proof.
  split.
  - eexists. split; [ | split].
    + unfold create_outputs, write, to_excel. cbn [append].
      rewrite <- !append_assoc. reflexivity.
    + now rewrite length_map.
    + induction issues_df as [ | row rest IH]; simpl; constructor;
        [reflexivity | exact IH].
  - intros input_file report hgnc_dump files. unfold main.
    destruct (create_df input_file report) as [[prefix coverage_df] | err];
      simpl; [ | discriminate].
    destruct (get_hgncs hgnc_dump (find_coverage_issues coverage_df))
      as [resolved | err] eqn:Hres; simpl; [ | discriminate].
    intros [= <-]. exists prefix, coverage_df, resolved.
    repeat split; try assumption.
    rewrite <- find_coverage_issues_filter.
    exact (get_hgncs_issue _ _ _ Hres).
Qed.

(** ** The runs of the specification

    A row at 95 is resolved and written to both files, a row at 100 is
    written to neither, and a row whose accession prefix is not in the
    reference table is written to both with the identifier "-". *)

Example end_to_end :
  main "s1.sambamba_output.txt"
       [brca1_report_row; xyz1_report_row; abc2_report_row] [brca1_entry]
  = Ok [ ("s1.low_coverage_genes.txt", TextFile example_text);
         ("s1.low_coverage_gene_exons.xlsx",
          Workbook ["gene"; "accession"; "exon_position"; "percent_x30"; "hgnc"]
            [ [Text (Str "BRCA1"); Text (Str "NM_007294.4");
               Text (Str "chr17:41196312-41197819"); Number (Num (95 # 1));
               Text (Str "HGNC:1100")];
              [Text (Str "ABC2"); Text (Str "NM_000111.2");
               Text (Str "chr17:41196312-41197819"); Number (Num (80 # 1));
               Text (Str "-")] ]) ].
Proof. reflexivity. Qed.

Example dot_search_example :
  re_search dot_ahead "NM_007294.4" = Some "NM_007294".
Proof. reflexivity. Qed.

Example suffix_search_example :
  re_search suffix_ahead "run1/s1.sambamba_output.txt" = Some "run1/s1".
Proof. reflexivity. Qed.

(** Neither dot of the suffix pattern is escaped. *)
Example suffix_search_loose :
  re_search suffix_ahead "s1_sambamba_output_txt" = Some "s1".
Proof. reflexivity. Qed.

Example split_once_example :
  split_once ";" "BRCA1;NM_007294.4;x" = ["BRCA1"; "NM_007294.4;x"].
Proof. reflexivity. Qed.

(** A record with no accession (its combined value held no [;]) raises
    [TypeError] at the search for the prefix. *)
Example missing_accession_raises :
  hgnc_for [brca1_entry]
    {| gene := Str "TP53"; accession := PyNone;
       exon_position := Str "chr17:1-2"; percent_x30 := Num (50 # 1) |}
  = Raise TypeError.
Proof. reflexivity. Qed.

(** * Further properties of the code *)

(** ** The searches, whatever the text *)

Lemma after_last_nl_split (s : string) :
  exists skipped,
    s = (skipped ++ after_last_nl s)%string
    /\ (skipped = "" \/ exists s', skipped = (s' ++ String nl "")%string)
    /\ has_char nl (after_last_nl s) = false.
Proof.
  induction s as [ | c s IH].
  { exists "". repeat split. now left. }
  cbn [after_last_nl].
  destruct (has_char nl (String c s)) eqn:Hc.
  - destruct IH as (skipped & Hs & Hend & Hnl).
    exists (String c skipped). split; [simpl; now rewrite <- Hs | ].
    split; [ | exact Hnl]. right.
    destruct Hend as [-> | (s' & ->)].
    + exists "". simpl in *.
      assert (Hnone : has_char nl s = false) by now rewrite Hs.
      rewrite Hnone, orb_false_r in Hc. apply Ascii.eqb_eq in Hc. now subst c.
    + now exists (String c s').
  - exists "". repeat split; [now left | exact Hc].
Qed.

Section SearchAnywhere.

Variable look : string -> bool.

(** A run that meets a line feed before any place the lookahead accepts
    fails. *)
Lemma lazy_run_blocked (w z : string) :
  (forall u v, w = (u ++ v)%string -> look (v ++ String nl z) = false) ->
  lazy_run look (w ++ String nl z) = None.
Proof.
  induction w as [ | c w IH]; intros Hlook.
  - pose proof (Hlook "" "" eq_refl) as H. simpl in H. simpl.
    rewrite H. reflexivity.
  - cbn [append lazy_run].
    change (String c (w ++ String nl z)%string)
      with (String c w ++ String nl z)%string.
    rewrite (Hlook "" (String c w) eq_refl).
    rewrite IH; [now destruct (Ascii.eqb c nl) | ].
    intros u v ->. apply (Hlook (String c u) v). reflexivity.
Qed.

(** The search returns the run that ends at the first place the
    lookahead accepts and starts after the last line feed before it. *)
Lemma re_search_skips (skipped m rest : string) :
  has_char nl m = false ->
  look rest = true ->
  (forall u v, (skipped ++ m)%string = (u ++ v)%string -> v <> "" ->
               look (v ++ rest) = false) ->
  (skipped = "" \/ exists s', skipped = (s' ++ String nl "")%string) ->
  re_search look (skipped ++ m ++ rest) = Some m.
Proof.
  intros Hnl Hrest. induction skipped as [ | c sk IH]; intros Hlook Hend.
  - cbn [append]. apply re_search_start, lazy_run_first; assumption.
  - destruct Hend as [Hend | (s' & Hs')]; [discriminate | ].
    assert (Hblocked : lazy_run look (String c sk ++ m ++ rest) = None).
    { rewrite Hs'. rewrite <- append_assoc. cbn [append].
      apply lazy_run_blocked. intros u v Huv.
      change (String nl (m ++ rest)%string) with (String nl m ++ rest)%string.
      rewrite (append_assoc v). apply (Hlook u).
      - rewrite Hs', Huv. rewrite <- !append_assoc. reflexivity.
      - destruct v; discriminate. }
    cbn [append re_search]. cbn [append] in Hblocked. rewrite Hblocked.
    apply IH.
    + intros u v Huv Hv. apply (Hlook (String c u) v); [ | exact Hv].
      cbn [append]. now rewrite Huv.
    + destruct s' as [ | c' s'']; simpl in Hs'.
      * injection Hs' as _ ->. now left.
      * injection Hs' as _ ->. right. now exists s''.
Qed.

End SearchAnywhere.

(** X1 (line 99): for an accession that holds a dot, the prefix the
    resolver looks up is the part of the text before the first dot that
    follows the last line feed of that text: all of it when it holds no
    line feed. *)
Theorem dot_search_any_text (pre rest : string) :
  has_char "." pre = false ->
  re_search dot_ahead (pre ++ String "." rest) = Some (after_last_nl pre).
Proof.
  intros Hdot.
  destruct (after_last_nl_split pre) as (skipped & Hs & Hend & Hnl).
  set (m := after_last_nl pre) in *.
  rewrite Hs at 1. rewrite <- append_assoc.
  apply re_search_skips; try assumption; [reflexivity | ].
  intros u v Huv Hv. destruct v as [ | c v]; [contradiction | ].
  rewrite <- Hs in Huv. rewrite Huv, has_char_app in Hdot.
  apply orb_false_iff in Hdot as [_ Hdot]. simpl in Hdot.
  apply orb_false_iff in Hdot as [Hc _].
  unfold dot_ahead. simpl. now rewrite Hc.
Qed.

(** An accession with a line feed, and one without. *)
Lemma dot_search_any_text_witness :
  re_search dot_ahead (("NM_007" ++ String nl "294") ++ String "." "4")
  = Some (after_last_nl ("NM_007" ++ String nl "294"))
  /\ re_search dot_ahead ("NM_007294" ++ String "." "4")
     = Some (after_last_nl "NM_007294").
Proof.
  split.
  - apply (dot_search_any_text ("NM_007" ++ String nl "294") "4"). reflexivity.
  - apply (dot_search_any_text "NM_007294" "4"). reflexivity.
Defined.

(** ** [create_df], whatever the path *)

Lemma suffix_ahead_complete (c1 c2 : ascii) (e : string) :
  c1 <> nl -> c2 <> nl -> e = "" \/ e = String nl "" ->
  suffix_ahead (String c1 ("sambamba_output" ++ String c2 ("txt" ++ e))) = true.
Proof.
  intros H1 H2 He. apply Ascii.eqb_neq in H1, H2.
  unfold suffix_ahead. simpl. rewrite H1, H2.
  destruct He as [-> | ->]; reflexivity.
Qed.

Lemma suffix_ahead_not_before (v : string) (c1 c2 : ascii) (e : string) :
  v <> "" -> e = "" \/ e = String nl "" ->
  suffix_ahead
    (v ++ String c1 ("sambamba_output" ++ String c2 ("txt" ++ e))) = false.
Proof.
  intros Hv He. apply not_true_iff_false. intros H.
  apply suffix_ahead_sound in H as (d1 & d2 & e' & H & _ & _ & He').
  pose proof (f_equal String.length H) as Hlen.
  rewrite length_append in Hlen. cbn [append String.length] in Hlen.
  destruct v as [ | a [ | b v]]; [contradiction | | ].
  - destruct He as [-> | ->], He' as [-> | ->];
      simpl in Hlen; try lia; simpl in H; discriminate.
  - destruct He as [-> | ->], He' as [-> | ->]; simpl in Hlen; lia.
Qed.

Lemma some_semicolon_dec (file_rows : list sambamba_row) :
  (forall r, In r file_rows -> holds_semicolon r = false)
  \/ (exists r, In r file_rows /\ holds_semicolon r = true).
Proof.
  induction file_rows as [ | r rest IH]; [left; intros r [] | ].
  destruct (holds_semicolon r) eqn:Hr.
  - right. exists r. split; [now left | exact Hr].
  - destruct IH as [Hnone | (x & Hx & Hsemi)].
    + left. intros x [<- | Hx]; [exact Hr | now apply Hnone].
    + right. exists x. split; [now right | exact Hsemi].
Qed.

Lemma some_text_dec (file_rows : list sambamba_row) :
  (forall r, In r file_rows -> holds_text r = false)
  \/ (exists r, In r file_rows /\ holds_text r = true).
Proof.
  induction file_rows as [ | r rest IH]; [left; intros r [] | ].
  destruct (holds_text r) eqn:Hr.
  - right. exists r. split; [now left | exact Hr].
  - destruct IH as [Hnone | (x & Hx & Htext)].
    + left. intros x [<- | Hx]; [exact Hr | now apply Hnone].
    + right. exists x. split; [now right | exact Htext].
Qed.

(** Without a text that holds a [;], the loader raises. *)
Lemma create_df_needs_semicolon (input_file : string)
    (file_rows : list sambamba_row) :
  (forall r, In r file_rows -> holds_semicolon r = false) ->
  create_df input_file file_rows = Raise ValueError
  \/ create_df input_file file_rows = Raise AttributeError.
Proof.
  intros Hnone.
  destruct file_rows as [ | r rest] eqn:Hrows; [now left | ].
  rewrite <- Hrows in *.
  destruct (some_text_dec file_rows) as [Hno | Htext].
  - right. apply create_df_no_text; [now rewrite Hrows | exact Hno].
  - left. apply create_df_no_semicolon; [now right | exact Hnone].
Qed.

(** X2 (lines 47 to 48): the path is accepted whenever it ends in the
    suffix with any character other than a line feed in the place of
    each of its two dots, a final line feed allowed; where some row of
    the report holds a text with a [;], the prefix returned is then what
    stands before that ending, after the last line feed if there is
    one. *)
Theorem create_df_loose_suffix (file_rows : list sambamba_row)
    (pre : string) (c1 c2 : ascii) (e : string) :
  (exists r, In r file_rows /\ holds_semicolon r = true) ->
  c1 <> nl -> c2 <> nl -> e = "" \/ e = String nl "" ->
  re_search suffix_ahead
    (pre ++ String c1 ("sambamba_output" ++ String c2 ("txt" ++ e)))
  = Some (after_last_nl pre)
  /\ exists coverage_df,
       create_df
         (pre ++ String c1 ("sambamba_output" ++ String c2 ("txt" ++ e)))
         file_rows
       = Ok (after_last_nl pre, coverage_df).
Proof.
  intros Hsome H1 H2 He.
  assert (Hsearch :
            re_search suffix_ahead
              (pre ++ String c1 ("sambamba_output" ++ String c2 ("txt" ++ e)))
            = Some (after_last_nl pre)).
  { destruct (after_last_nl_split pre) as (skipped & Hs & Hend & Hnl).
    set (m := after_last_nl pre) in *.
    rewrite Hs at 1. rewrite <- append_assoc.
    apply re_search_skips; try assumption.
    - now apply suffix_ahead_complete.
    - intros u v _ Hv. now apply suffix_ahead_not_before. }
  split; [exact Hsearch | ].
  destruct (create_df_split file_rows Hsome) as (coverage_df & _ & Hdf).
  exists coverage_df. now rewrite Hdf, Hsearch.
Qed.

(** A path with underscores in the place of the dots. *)
Lemma create_df_loose_suffix_witness :
  re_search suffix_ahead
    ("run1/s1" ++ String "_" ("sambamba_output" ++ String "_" ("txt" ++ "")))
  = Some (after_last_nl "run1/s1")
  /\ exists coverage_df,
       create_df
         ("run1/s1" ++ String "_" ("sambamba_output" ++ String "_" ("txt" ++ "")))
         [brca1_report_row]
       = Ok (after_last_nl "run1/s1", coverage_df).
Proof.
  apply (create_df_loose_suffix [brca1_report_row] "run1/s1" "_" "_" "").
  - exists brca1_report_row. split; [now left | reflexivity].
  - discriminate.
  - discriminate.
  - now left.
Defined.

Lemma row_split_sambamba (file_rows : list sambamba_row)
    (coverage_df : list coverage_row) :
  Forall2 row_split file_rows coverage_df ->
  map sambamba coverage_df = file_rows.
Proof.
  induction 1 as [ | r c rs cs Hrc _ IH]; [reflexivity | ].
  simpl. rewrite IH. now destruct Hrc.
Qed.

(** X3 (lines 38 to 50): whenever the loader returns, the frame has the
    rows of the report in their order, each text split at its first [;]
    (a text without [;] stays whole as gene symbol with [None] as
    accession, a missing value gives [nan] for both), some row of the
    report holds a text with a [;], and the prefix holds no line feed
    and stands in the path right before an ending like the suffix. *)
Theorem create_df_returns (input_file : string)
    (file_rows : list sambamba_row) (output_prefix : string)
    (coverage_df : list coverage_row) :
  create_df input_file file_rows = Ok (output_prefix, coverage_df) ->
  Forall2 row_split file_rows coverage_df
  /\ map sambamba coverage_df = file_rows
  /\ (exists r, In r file_rows /\ holds_semicolon r = true)
  /\ has_char nl output_prefix = false
  /\ exists skipped c1 c2 e,
       input_file
       = (skipped ++ output_prefix
          ++ String c1 ("sambamba_output" ++ String c2 ("txt" ++ e)))%string
       /\ c1 <> nl /\ c2 <> nl /\ (e = "" \/ e = String nl "").
Proof.
  intros Hok.
  destruct (some_semicolon_dec file_rows) as [Hnone | Hsome].
  { destruct (create_df_needs_semicolon input_file file_rows Hnone) as [H | H];
      rewrite H in Hok; discriminate. }
  destruct (create_df_split file_rows Hsome) as (df & Hrows & Hdf).
  rewrite Hdf in Hok.
  destruct (re_search suffix_ahead input_file) as [m | ] eqn:Hm;
    [ | discriminate].
  simpl in Hok. injection Hok as -> ->.
  apply re_search_sound in Hm as (skipped & rest & Hpath & Hrest & Hnl).
  apply suffix_ahead_sound in Hrest as (c1 & c2 & e & -> & H1 & H2 & He).
  split; [exact Hrows | ]. split; [ | split; [exact Hsome | split]].
  - now apply row_split_sambamba.
  - exact Hnl.
  - now exists skipped, c1, c2, e.
Qed.

(** The loading of a report of three rows: a text without [;], a
    missing value, and a text with a [;]. *)
Lemma create_df_returns_witness :
  Forall2 row_split [unsplit_report_row; missing_report_row; brca1_report_row]
    [ {| sambamba := unsplit_report_row;
         GeneSymbol := Str "TP53"; Accession := PyNone |};
      {| sambamba := missing_report_row;
         GeneSymbol := NaN; Accession := NaN |};
      {| sambamba := brca1_report_row;
         GeneSymbol := Str "BRCA1"; Accession := Str "NM_007294.4" |} ]
  /\ map sambamba
       [ {| sambamba := unsplit_report_row;
            GeneSymbol := Str "TP53"; Accession := PyNone |};
         {| sambamba := missing_report_row;
            GeneSymbol := NaN; Accession := NaN |};
         {| sambamba := brca1_report_row;
            GeneSymbol := Str "BRCA1"; Accession := Str "NM_007294.4" |} ]
     = [unsplit_report_row; missing_report_row; brca1_report_row]
  /\ (exists r, In r [unsplit_report_row; missing_report_row;
                      brca1_report_row]
                /\ holds_semicolon r = true)
  /\ has_char nl "s1" = false
  /\ exists skipped c1 c2 e,
       "s1.sambamba_output.txt"
       = (skipped ++ "s1"
          ++ String c1 ("sambamba_output" ++ String c2 ("txt" ++ e)))%string
       /\ c1 <> nl /\ c2 <> nl /\ (e = "" \/ e = String nl "").
Proof.
  apply (create_df_returns "s1.sambamba_output.txt"
           [unsplit_report_row; missing_report_row; brca1_report_row]).
  reflexivity.
Defined.

(** ** The assertion, field by field *)

Lemma validation_passes_lemma (e : HGNC.row) (gene_symbol acc h : cell) :
  checked_hgnc e gene_symbol acc = Ok h ->
  h = HGNC.hgnc e
  /\ exists g, gene_symbol = Str g /\ validation_passes g e.
Proof.
  unfold checked_hgnc, py_or, py_in, validation_passes.
  destruct gene_symbol as [g | | ];
    [ | destruct (HGNC.approved e); discriminate
      | destruct (HGNC.approved e); discriminate].
  destruct (HGNC.approved e) as [a | | ]; simpl; try discriminate.
  destruct (is_substring g a) eqn:Ha; simpl.
  { intros [= <-]. split; [reflexivity | ]. exists g. split; [reflexivity | ].
    exists a. split; [reflexivity | left]. now apply is_substring_occurs. }
  destruct (HGNC.previous e) as [b | | ]; simpl; try discriminate.
  destruct (is_substring g b) eqn:Hb; simpl.
  { intros [= <-]. split; [reflexivity | ]. exists g. split; [reflexivity | ].
    exists a. split; [reflexivity | right]. exists b.
    split; [reflexivity | left]. now apply is_substring_occurs. }
  destruct (HGNC.aliases e) as [c | | ]; simpl; try discriminate.
  destruct (is_substring g c) eqn:Hc; simpl; [ | discriminate].
  intros [= <-]. split; [reflexivity | ]. exists g. split; [reflexivity | ].
  exists a. split; [reflexivity | right]. exists b.
  split; [reflexivity | right]. exists c.
  split; [reflexivity | ]. now apply is_substring_occurs.
Qed.

(** X4 (lines 105 to 110): the assertion lets a record through, with
    the identifier of the row, exactly when its gene symbol is text and
    occurs in the approved text, or the approved field is text and the
    symbol occurs in the previous text, or both fields are text and the
    symbol occurs in the alias text.  A field after the one that holds
    the symbol is not looked at, so it may be empty. *)
Theorem validation_passes_exactly (e : HGNC.row) (gene_symbol acc h : cell) :
  checked_hgnc e gene_symbol acc = Ok h
  <-> h = HGNC.hgnc e
      /\ exists g, gene_symbol = Str g /\ validation_passes g e.
Proof.
  unfold checked_hgnc, py_or, py_in, validation_passes.
  destruct gene_symbol as [g | | ].
  2,3: destruct (HGNC.approved e); simpl;
       (split; [discriminate | intros (_ & g & Hg & _); discriminate]).
  destruct (HGNC.approved e) as [a | | ]; simpl.
  2,3: split; [discriminate | intros (_ & g' & _ & a & Ha & _); discriminate].
  destruct (is_substring g a) eqn:Ha; simpl.
  { split.
    - intros [= <-]. split; [reflexivity | ]. exists g. split; [reflexivity | ].
      exists a. split; [reflexivity | left]. now apply is_substring_occurs.
    - intros (-> & _). reflexivity. }
  assert (Hna : ~ occurs_in g a).
  { rewrite <- is_substring_occurs. now rewrite Ha. }
  destruct (HGNC.previous e) as [b | | ]; simpl.
  2,3: split; [discriminate | ];
       intros (_ & g' & [= <-] & a' & [= <-] & [Hin | (b & Hb & _)]);
       [contradiction | discriminate].
  destruct (is_substring g b) eqn:Hb; simpl.
  { split.
    - intros [= <-]. split; [reflexivity | ]. exists g. split; [reflexivity | ].
      exists a. split; [reflexivity | right]. exists b.
      split; [reflexivity | left]. now apply is_substring_occurs.
    - intros (-> & _). reflexivity. }
  assert (Hnb : ~ occurs_in g b).
  { rewrite <- is_substring_occurs. now rewrite Hb. }
  destruct (HGNC.aliases e) as [c | | ]; simpl.
  2,3: split; [discriminate | ];
       intros (_ & g' & [= <-] & a' & [= <-]
               & [Hin | (b' & [= <-] & [Hin | (c & Hc & _)])]);
       [contradiction | contradiction | discriminate].
  destruct (is_substring g c) eqn:Hc; simpl.
  - split.
    + intros [= <-]. split; [reflexivity | ]. exists g. split; [reflexivity | ].
      exists a. split; [reflexivity | right]. exists b.
      split; [reflexivity | right]. exists c.
      split; [reflexivity | ]. now apply is_substring_occurs.
    + intros (-> & _). reflexivity.
  - split; [discriminate | ].
    intros (_ & g' & [= <-] & a' & [= <-]
            & [Hin | (b' & [= <-] & [Hin | (c' & [= <-] & Hin)])]);
      try contradiction.
    apply is_substring_occurs in Hin. congruence.
Qed.

(** X5 (lines 105 to 108): the assertion raises [TypeError] exactly
    when the gene symbol is not text, or a field that is not text (an
    empty field of the dump) is reached: the approved field, or the
    previous field when the symbol is not in the approved text, or the
    alias field when it is in neither of the two texts before. *)
Theorem validation_type_error_exactly (e : HGNC.row) (gene_symbol acc : cell) :
  checked_hgnc e gene_symbol acc = Raise TypeError
  <-> (forall g, gene_symbol <> Str g)
      \/ (forall a, HGNC.approved e <> Str a)
      \/ exists g a,
           gene_symbol = Str g /\ HGNC.approved e = Str a /\ ~ occurs_in g a
           /\ ((forall b, HGNC.previous e <> Str b)
               \/ exists b, HGNC.previous e = Str b /\ ~ occurs_in g b
                            /\ forall c, HGNC.aliases e <> Str c).
Proof.
  unfold checked_hgnc, py_or, py_in.
  destruct gene_symbol as [g | | ].
  2,3: destruct (HGNC.approved e); simpl;
       (split; [intros _; left; intros g; discriminate | reflexivity]).
  destruct (HGNC.approved e) as [a | | ]; simpl.
  2,3: split; [intros _; right; left; intros a; discriminate | reflexivity].
  destruct (is_substring g a) eqn:Ha; simpl.
  { split; [discriminate | ].
    intros [H | [H | (g' & a' & [= <-] & [= <-] & Hna & _)]].
    - now specialize (H g).
    - now specialize (H a).
    - apply is_substring_occurs in Ha. contradiction. }
  assert (Hna : ~ occurs_in g a).
  { rewrite <- is_substring_occurs. now rewrite Ha. }
  destruct (HGNC.previous e) as [b | | ]; simpl.
  2,3: split; [ | reflexivity]; intros _; right; right; exists g, a;
       repeat split; try assumption; left; intros b; discriminate.
  destruct (is_substring g b) eqn:Hb; simpl.
  { split; [discriminate | ].
    intros [H | [H | (g' & a' & [= <-] & [= <-] & _
                      & [H | (b' & [= <-] & Hnb & _)])]].
    - now specialize (H g).
    - now specialize (H a).
    - now specialize (H b).
    - apply is_substring_occurs in Hb. contradiction. }
  assert (Hnb : ~ occurs_in g b).
  { rewrite <- is_substring_occurs. now rewrite Hb. }
  destruct (HGNC.aliases e) as [c | | ]; simpl.
  2,3: split; [ | reflexivity]; intros _; right; right; exists g, a;
       repeat split; try assumption; right; exists b;
       repeat split; try assumption; intros c; discriminate.
  assert (Hno : (forall g0 : string, Str g <> Str g0)
                \/ (forall a0 : string, Str a <> Str a0)
                \/ (exists g0 a0 : string,
                      Str g = Str g0 /\ Str a = Str a0 /\ ~ occurs_in g0 a0
                      /\ ((forall b0 : string, Str b <> Str b0)
                          \/ (exists b0 : string,
                                Str b = Str b0 /\ ~ occurs_in g0 b0
                                /\ (forall c0 : string, Str c <> Str c0))))
                -> False).
  { intros [H | [H | (g' & a' & [= <-] & [= <-] & _
                      & [H | (b' & [= <-] & _ & H)])]].
    - now specialize (H g).
    - now specialize (H a).
    - now specialize (H b).
    - now specialize (H c). }
  destruct (is_substring g c); simpl;
    (split; [discriminate | intros H; destruct (Hno H)]).
Qed.

(** ** The resolver, whatever the table *)

(** Either no row of the table holds the prefix, or there is a first
    one. *)
Lemma first_match_split (hgnc_df : list HGNC.row) (p : string) :
  (forall x, In x hgnc_df -> HGNC.refseq x <> Str p)
  \/ exists before e after,
       hgnc_df = before ++ e :: after
       /\ (forall x, In x before -> HGNC.refseq x <> Str p)
       /\ HGNC.refseq e = Str p.
Proof.
  induction hgnc_df as [ | r rest IH]; [left; intros x [] | ].
  destruct (cell_eq_str (HGNC.refseq r) p) eqn:Hr.
  - right. exists [], r, rest. apply cell_eq_str_iff in Hr.
    repeat split; [intros x [] | exact Hr].
  - assert (Hne : HGNC.refseq r <> Str p).
    { intros H. apply cell_eq_str_iff in H. congruence. }
    destruct IH as [Hnone | (before & e & after & -> & Hbefore & He)].
    + left. intros x [<- | Hx]; [exact Hne | now apply Hnone].
    + right. exists (r :: before), e, after. repeat split; [ | exact He].
      intros x [<- | Hx]; [exact Hne | now apply Hbefore].
Qed.

(** What one pass of the loop can give. *)
Lemma hgnc_for_cases (hgnc_df : list HGNC.row) (row : issue_row) :
  (hgnc_for hgnc_df row = Raise TypeError
   /\ forall acc, accession row <> Str acc)
  \/ (exists acc, accession row = Str acc /\ has_char "." acc = false
                  /\ hgnc_for hgnc_df row = Raise AttributeError)
  \/ exists acc p,
       accession row = Str acc /\ re_search dot_ahead acc = Some p
       /\ ((hgnc_for hgnc_df row = Ok (Str "-")
            /\ forall x, In x hgnc_df -> HGNC.refseq x <> Str p)
           \/ exists before e after,
                hgnc_df = before ++ e :: after
                /\ (forall x, In x before -> HGNC.refseq x <> Str p)
                /\ HGNC.refseq e = Str p
                /\ hgnc_for hgnc_df row
                   = checked_hgnc e (gene row) (accession row)).
Proof.
  destruct (accession row) as [acc | | ] eqn:Hacc.
  2,3: left; unfold hgnc_for; rewrite Hacc; split;
       [reflexivity | intros acc; discriminate].
  right. destruct (re_search dot_ahead acc) as [p | ] eqn:Hp.
  - right. exists acc, p. repeat split; try reflexivity; try assumption.
    destruct (first_match_split hgnc_df p)
      as [Hnone | (before & e & after & -> & Hbefore & He)].
    + left. split; [ | exact Hnone].
      rewrite (hgnc_for_prefix _ _ _ _ Hacc Hp).
      now rewrite try_body_miss by assumption.
    + right. exists before, e, after. repeat split; try assumption.
      rewrite (hgnc_for_first_match before after e row acc p Hacc Hp Hbefore He).
      now rewrite Hacc.
  - left. exists acc. split; [reflexivity | ].
    split.
    + destruct (has_char "." acc) eqn:Hdot; [ | reflexivity].
      exfalso. clear Hacc.
      assert (Hsplit : exists pre rest,
                 acc = (pre ++ String "." rest)%string
                 /\ has_char "." pre = false).
      { clear Hp. induction acc as [ | c s IH]; [discriminate | ].
        simpl in Hdot. destruct (Ascii.eqb c ".") eqn:Hc.
        - apply Ascii.eqb_eq in Hc. subst c. now exists "", s.
        - destruct (IH Hdot) as (pre & rest & -> & Hpre).
          exists (String c pre), rest. simpl. now rewrite Hc, Hpre. }
      destruct Hsplit as (pre & rest & -> & Hpre).
      pose proof (re_search_None dot_ahead _ Hp pre (String "." rest) eq_refl)
        as H.
      discriminate.
    + unfold hgnc_for. rewrite Hacc. simpl. now rewrite Hp.
Qed.

Lemma get_hgncs_Ok_each (hgnc_df : list HGNC.row)
    (issues_df : list issue_row) (out : list annotated_row) :
  get_hgncs hgnc_df issues_df = Ok out ->
  forall o, In o out -> hgnc_for hgnc_df (issue o) = Ok (hgnc o).
Proof.
  revert out. induction issues_df as [ | row rest IH]; intros out.
  - intros [= <-] o [].
  - rewrite get_hgncs_cons.
    destruct (hgnc_for hgnc_df row) as [h | err] eqn:Hrow; simpl;
      [ | discriminate].
    destruct (get_hgncs hgnc_df rest) as [more | err]; simpl; [ | discriminate].
    intros [= <-] o [<- | Ho]; [exact Hrow | exact (IH more eq_refl o Ho)].
Qed.

Lemma get_hgncs_Raise_first (hgnc_df : list HGNC.row)
    (issues_df : list issue_row) (err : exn) :
  get_hgncs hgnc_df issues_df = Raise err ->
  exists earlier row later,
    issues_df = earlier ++ row :: later
    /\ (forall r, In r earlier -> exists h, hgnc_for hgnc_df r = Ok h)
    /\ hgnc_for hgnc_df row = Raise err.
Proof.
  induction issues_df as [ | row rest IH]; [discriminate | ].
  rewrite get_hgncs_cons.
  destruct (hgnc_for hgnc_df row) as [h | e] eqn:Hrow; simpl.
  - destruct (get_hgncs hgnc_df rest) as [more | e]; simpl; [discriminate | ].
    intros [= <-].
    destruct (IH eq_refl) as (earlier & r & later & -> & Hearlier & Hr).
    exists (row :: earlier), r, later. repeat split; [ | exact Hr].
    intros x [<- | Hx]; [now exists h | now apply Hearlier].
  - intros [= <-]. exists [], row, rest. repeat split; [ | exact Hrow].
    intros r [].
Qed.

Lemma get_hgncs_ext (t1 t2 : list HGNC.row) (issues_df : list issue_row) :
  (forall row, In row issues_df -> hgnc_for t1 row = hgnc_for t2 row) ->
  get_hgncs t1 issues_df = get_hgncs t2 issues_df.
Proof.
  induction issues_df as [ | row rest IH]; intros H; [reflexivity | ].
  rewrite !get_hgncs_cons, (H row (or_introl eq_refl)), IH; [reflexivity | ].
  intros r Hr. apply H. now right.
Qed.

(** X6 (lines 95 to 117): in a frame the resolver returns, the
    identifier of every row is either the text "-", no row of the
    reference table holding the prefix of its accession, or the
    identifier of the first row of the table that holds that prefix, and
    then the gene symbol of the row is text and passes the tests of the
    assertion on that row.  An identifier is never taken from a row the
    gene symbol does not occur in. *)
Theorem get_hgncs_identifiers (hgnc_df : list HGNC.row)
    (issues_df : list issue_row) (out : list annotated_row) :
  get_hgncs hgnc_df issues_df = Ok out ->
  forall o, In o out ->
    exists acc p,
      accession o = Str acc /\ re_search dot_ahead acc = Some p
      /\ ((hgnc o = Str "-"
           /\ forall x, In x hgnc_df -> HGNC.refseq x <> Str p)
          \/ exists before e after g,
               hgnc_df = before ++ e :: after
               /\ (forall x, In x before -> HGNC.refseq x <> Str p)
               /\ HGNC.refseq e = Str p
               /\ hgnc o = HGNC.hgnc e
               /\ gene o = Str g
               /\ validation_passes g e
               /\ symbol_found g e).
Proof.
  intros Hok o Ho. pose proof (get_hgncs_Ok_each _ _ _ Hok o Ho) as Hrow.
  destruct (hgnc_for_cases hgnc_df (issue o))
    as [[H _] | [(acc & _ & _ & H) | (acc & p & Hacc & Hp & Hcase)]];
    [congruence | congruence | ].
  exists acc, p. split; [exact Hacc | split; [exact Hp | ]].
  destruct Hcase as [[H Hnone] | (before & e & after & Htbl & Hb & He & H)].
  - left. split; [congruence | exact Hnone].
  - right. rewrite H in Hrow.
    apply validation_passes_lemma in Hrow as (Hh & g & Hg & Hpass).
    exists before, e, after, g. repeat split; try assumption.
    destruct Hpass as (a & Ha & [Hin | (b & Hb' & [Hin | (c & Hc & Hin)])]).
    + left. now exists a.
    + right. left. now exists b.
    + right. right. now exists c.
Qed.

(** A resolved frame of two records, one found at a row whose previous
    field is empty, one not found. *)
Lemma get_hgncs_identifiers_witness :
  exists acc p,
    accession brca1_resolved = Str acc /\ re_search dot_ahead acc = Some p
    /\ ((hgnc brca1_resolved = Str "-"
         /\ forall x, In x [tp53_entry; brca1_site_entry] ->
                      HGNC.refseq x <> Str p)
        \/ exists before e after g,
             [tp53_entry; brca1_site_entry] = before ++ e :: after
             /\ (forall x, In x before -> HGNC.refseq x <> Str p)
             /\ HGNC.refseq e = Str p
             /\ hgnc brca1_resolved = HGNC.hgnc e
             /\ gene brca1_resolved = Str g
             /\ validation_passes g e
             /\ symbol_found g e).
Proof.
  apply (get_hgncs_identifiers [tp53_entry; brca1_site_entry]
           [brca1_issue; abc2_issue] [brca1_resolved; abc2_resolved]).
  - reflexivity.
  - now left.
Defined.

Lemma checked_hgnc_raises (e : HGNC.row) (gene_symbol acc : cell) (err : exn) :
  checked_hgnc e gene_symbol acc = Raise err ->
  err = TypeError
  \/ err = AssertionError
             (format_cell acc ++ " wrongly matched to "
              ++ format_cell (HGNC.hgnc e))%string.
Proof.
  unfold checked_hgnc, py_or, py_in.
  destruct gene_symbol as [g | | ];
    [ | destruct (HGNC.approved e); simpl; intros [= <-]; now left
      | destruct (HGNC.approved e); simpl; intros [= <-]; now left].
  destruct (HGNC.approved e) as [a | | ]; simpl;
    try (intros [= <-]; now left).
  destruct (is_substring g a); simpl; [discriminate | ].
  destruct (HGNC.previous e) as [b | | ]; simpl;
    try (intros [= <-]; now left).
  destruct (is_substring g b); simpl; [discriminate | ].
  destruct (HGNC.aliases e) as [c | | ]; simpl;
    try (intros [= <-]; now left).
  destruct (is_substring g c); simpl; [discriminate | ].
  intros [= <-]. now right.
Qed.

(** X7 (lines 95 to 119): the resolver raises nothing but [TypeError],
    [AttributeError] and [AssertionError], and the message of the
    latter is the accession of a row of the frame, " wrongly matched to
    ", and the identifier of a row of the reference table.  The
    [IndexError] of a lookup that finds nothing never leaves the
    function, and the assignment of the new column never fails. *)
Theorem get_hgncs_exceptions (hgnc_df : list HGNC.row)
    (issues_df : list issue_row) (err : exn) :
  get_hgncs hgnc_df issues_df = Raise err ->
  err = TypeError
  \/ err = AttributeError
  \/ exists row e acc,
       In row issues_df /\ In e hgnc_df /\ accession row = Str acc
       /\ err = AssertionError
                  (acc ++ " wrongly matched to "
                   ++ format_cell (HGNC.hgnc e))%string.
Proof.
  intros Hraise.
  apply get_hgncs_Raise_first in Hraise
    as (earlier & row & later & -> & _ & Hrow).
  destruct (hgnc_for_cases hgnc_df row)
    as [[H _] | [(acc & _ & _ & H) | (acc & p & Hacc & Hp & Hcase)]].
  - left. congruence.
  - right. left. congruence.
  - destruct Hcase as [[H _] | (before & e & after & -> & _ & _ & H)];
      [congruence | ].
    rewrite H in Hrow. apply checked_hgnc_raises in Hrow as [-> | ->].
    + now left.
    + right. right. exists row, e, acc. rewrite Hacc.
      repeat split; [apply in_elt | apply in_elt].
Qed.

(** A gene matched to the row of another gene. *)
Lemma get_hgncs_exceptions_witness :
  AssertionError "NM_007294.4 wrongly matched to HGNC:1100" = TypeError
  \/ AssertionError "NM_007294.4 wrongly matched to HGNC:1100" = AttributeError
  \/ exists row e acc,
       In row [abc2_issue; tp53_issue] /\ In e [brca1_entry]
       /\ accession row = Str acc
       /\ AssertionError "NM_007294.4 wrongly matched to HGNC:1100"
          = AssertionError
              (acc ++ " wrongly matched to "
               ++ format_cell (HGNC.hgnc e))%string.
Proof.
  apply (get_hgncs_exceptions [brca1_entry] [abc2_issue; tp53_issue]).
  reflexivity.
Defined.

Lemma has_text_refseq_match (e : HGNC.row) (p : string) :
  HGNC.refseq e = Str p -> has_text_refseq e = true.
Proof.
  unfold has_text_refseq. now intros ->.
Qed.

Lemma filter_no_match (hgnc_df : list HGNC.row) (p : string) :
  (forall x, In x hgnc_df -> HGNC.refseq x <> Str p) ->
  forall x, In x (filter has_text_refseq hgnc_df) -> HGNC.refseq x <> Str p.
Proof.
  intros H x Hx. apply filter_In in Hx as [Hx _]. now apply H.
Qed.

Lemma hgnc_for_text_refseq (hgnc_df : list HGNC.row) (row : issue_row) :
  hgnc_for (filter has_text_refseq hgnc_df) row = hgnc_for hgnc_df row.
Proof.
  destruct (hgnc_for_cases hgnc_df row)
    as [[H Hacc] | [(acc & Hacc & Hdot & H) | (acc & p & Hacc & Hp & Hcase)]].
  - rewrite H. unfold hgnc_for.
    destruct (accession row) as [acc | | ]; [now specialize (Hacc acc) | | ];
      reflexivity.
  - rewrite H. unfold hgnc_for. rewrite Hacc. simpl.
    now rewrite (dot_search_none acc Hdot).
  - destruct Hcase as [[H Hnone] | (before & e & after & -> & Hb & He & H)].
    + rewrite H, (hgnc_for_prefix _ _ _ _ Hacc Hp).
      rewrite try_body_miss; [reflexivity | now apply filter_no_match].
    + rewrite H, filter_app. cbn [filter].
      rewrite (has_text_refseq_match e p He).
      rewrite (hgnc_for_first_match _ _ e row acc p Hacc Hp); [ | | exact He].
      * now rewrite Hacc.
      * now apply filter_no_match.
Qed.

(** X8 (line 102): the rows of the reference table whose refseq field
    is empty are never selected: the resolver gives the same result,
    frame or exception, on the table without them. *)
Theorem get_hgncs_ignores_empty_refseq (hgnc_df : list HGNC.row)
    (issues_df : list issue_row) :
  get_hgncs (filter has_text_refseq hgnc_df) issues_df
  = get_hgncs hgnc_df issues_df.
Proof.
  apply get_hgncs_ext. intros row _. apply hgnc_for_text_refseq.
Qed.

(** X9 (lines 101 to 113): on a reference table with no row, or with
    no row whose refseq field is text, a frame in which every accession
    is text and holds a dot is returned with "-" as the identifier of
    every row. *)
Theorem get_hgncs_without_reference (hgnc_df : list HGNC.row)
    (issues_df : list issue_row) :
  (forall e, In e hgnc_df -> has_text_refseq e = false) ->
  (forall row, In row issues_df ->
     exists acc, accession row = Str acc /\ has_char "." acc = true) ->
  get_hgncs hgnc_df issues_df
  = Ok (map (fun row => {| issue := row; hgnc := Str "-" |}) issues_df).
Proof.
  intros Htable Hrows.
  induction issues_df as [ | row rest IH]; [reflexivity | ].
  rewrite get_hgncs_cons, IH by (intros r Hr; apply Hrows; now right).
  destruct (Hrows row (or_introl eq_refl)) as (acc & Hacc & Hdot).
  destruct (hgnc_for_cases hgnc_df row)
    as [[_ H] | [(acc' & Hacc' & Hdot' & _) | (acc' & p & _ & _ & Hcase)]].
  - now specialize (H acc).
  - congruence.
  - destruct Hcase as [[-> _] | (before & e & after & -> & _ & He & _)];
      [reflexivity | ].
    apply has_text_refseq_match in He.
    rewrite (Htable e) in He by apply in_elt. discriminate.
Qed.

(** The empty table, and a table whose only row has no refseq. *)
Lemma get_hgncs_without_reference_witness :
  get_hgncs [] [brca1_issue; abc2_issue]
  = Ok (map (fun row => {| issue := row; hgnc := Str "-" |})
            [brca1_issue; abc2_issue])
  /\ get_hgncs [no_refseq_entry] [brca1_issue; abc2_issue]
     = Ok (map (fun row => {| issue := row; hgnc := Str "-" |})
               [brca1_issue; abc2_issue]).
Proof.
  split.
  - apply (get_hgncs_without_reference [] [brca1_issue; abc2_issue]).
    + intros e [].
    + intros row [<- | [<- | []]]; eexists; split; reflexivity.
  - apply (get_hgncs_without_reference [no_refseq_entry]
             [brca1_issue; abc2_issue]).
    + intros e [<- | []]. reflexivity.
    + intros row [<- | [<- | []]]; eexists; split; reflexivity.
Defined.

(** ** [find_coverage_issues] and [unique_gene_list], frame by frame *)

(** X10 (lines 64 to 77): the issue filter works row by row: the issues
    of two reports put end to end are the issues of the first followed
    by the issues of the second; and a row whose percentage is missing
    ([nan]) is kept as an issue, [nan != 100] being true. *)
Theorem find_coverage_issues_app (first second : list coverage_row) :
  find_coverage_issues (first ++ second)
  = find_coverage_issues first ++ find_coverage_issues second
  /\ (forall row, In row first ->
        percentage30 (sambamba row) = NumNaN ->
        In (new_issue row) (find_coverage_issues first)).
Proof.
  split.
  - rewrite !find_coverage_issues_filter, filter_app. apply map_app.
  - intros row Hin Hnan. rewrite find_coverage_issues_filter.
    apply in_map, filter_In. split; [exact Hin | ].
    unfold flagged. now rewrite Hnan.
Qed.

Lemma filter_true {A : Type} (l : list A) : filter (fun _ => true) l = l.
Proof.
  induction l as [ | x r IH]; simpl; [reflexivity | now rewrite IH].
Qed.

Lemma first_occurrences_app (l1 l2 : list string) :
  first_occurrences (l1 ++ l2)
  = first_occurrences l1
    ++ filter (fun y => negb (existsb (String.eqb y) (first_occurrences l1)))
              (first_occurrences l2).
Proof.
  pose proof (problem_genes_loop (l1 ++ l2) []) as H.
  cbn [existsb negb app] in H. rewrite filter_true in H. rewrite <- H.
  rewrite fold_left_app, (problem_genes_loop l1 []).
  cbn [existsb negb app]. rewrite filter_true.
  apply problem_genes_loop.
Qed.

Lemma first_occurrences_length (l : list string) :
  length (first_occurrences l) <= length l.
Proof.
  induction l as [ | x r IH]; simpl; [lia | ].
  pose proof (filter_length_le (fun y => negb (String.eqb y x))
                (first_occurrences r)).
  lia.
Qed.

(** X11 (lines 132 to 141): the gene list of two frames put end to end
    is the gene list of the first followed by the entries of the gene
    list of the second that the first does not hold; and a gene list is
    never longer than its frame. *)
Theorem unique_gene_list_app (first second : list annotated_row) :
  unique_gene_list (first ++ second)
  = unique_gene_list first
    ++ filter (fun s => negb (existsb (String.eqb s) (unique_gene_list first)))
              (unique_gene_list second)
  /\ length (unique_gene_list first) <= length first.
Proof.
  rewrite !unique_gene_list_first_occurrences, map_app. split.
  - apply first_occurrences_app.
  - rewrite <- (length_map identifier first). apply first_occurrences_length.
Qed.

Lemma same_gene_columns_identifier (r1 r2 : annotated_row) :
  same_gene_columns r1 r2 -> identifier r1 = identifier r2.
Proof.
  intros (Hg & Ha & Hh). unfold identifier. now rewrite Hg, Ha, Hh.
Qed.

(** X12 (lines 136 to 139): a row that repeats the gene, accession and
    identifier of an earlier row of the frame (another exon of the same
    gene) changes nothing in the gene list, wherever it stands after
    that row and whatever its position and percentage. *)
Theorem unique_gene_list_repeated_row (before between after : list annotated_row)
    (r1 r2 : annotated_row) :
  same_gene_columns r1 r2 ->
  unique_gene_list (before ++ r1 :: between ++ r2 :: after)
  = unique_gene_list (before ++ r1 :: between ++ after).
Proof.
  intros Hsame. apply same_gene_columns_identifier in Hsame.
  assert (Hin : In (identifier r2)
                   (first_occurrences
                      (map identifier (before ++ r1 :: between)))).
  { apply first_occurrences_In. rewrite <- Hsame. apply in_map, in_elt. }
  change (before ++ r1 :: between ++ r2 :: after)
    with (before ++ (r1 :: between) ++ r2 :: after).
  change (before ++ r1 :: between ++ after)
    with (before ++ (r1 :: between) ++ after).
  rewrite !app_assoc.
  rewrite !unique_gene_list_first_occurrences, !map_app.
  rewrite !(first_occurrences_app (map identifier before ++ map identifier (r1 :: between))).
  rewrite <- map_app. f_equal. cbn [map first_occurrences filter].
  apply existsb_eqb_In in Hin. rewrite Hin. cbn [negb].
  rewrite filter_filter. apply filter_ext. intros y.
  destruct (String.eqb y (identifier r2)) eqn:Hy; simpl; [ | reflexivity].
  apply String.eqb_eq in Hy. subst y. now rewrite Hin.
Qed.

(** Two exons of BRCA1. *)
Lemma unique_gene_list_repeated_row_witness :
  unique_gene_list ([] ++ brca1_resolved :: [abc2_resolved]
                      ++ brca1_other_exon :: [])
  = unique_gene_list ([] ++ brca1_resolved :: [abc2_resolved] ++ []).
Proof.
  apply (unique_gene_list_repeated_row [] [abc2_resolved] []
           brca1_resolved brca1_other_exon).
  repeat split.
Defined.

Lemma tab_split_unique (u v x y : string) :
  has_char tab u = false -> has_char tab v = false ->
  (u ++ String tab x)%string = (v ++ String tab y)%string ->
  u = v /\ x = y.
Proof.
  revert v. induction u as [ | c u IH]; intros v Hu Hv H.
  - destruct v as [ | d v]; simpl in H.
    + injection H as ->. now split.
    + injection H as <- _. simpl in Hv. discriminate.
  - destruct v as [ | d v]; simpl in H.
    + injection H as -> _. simpl in Hu. discriminate.
    + injection H as -> H. simpl in Hu, Hv.
      apply orb_false_iff in Hu as [_ Hu]. apply orb_false_iff in Hv as [_ Hv].
      destruct (IH v Hu Hv H) as [-> ->]. now split.
Qed.

(** X13 (line 136): for rows whose gene symbol and accession are texts
    without a tab, two rows give the same line of the gene list exactly
    when they have the same gene symbol, the same accession and
    identifiers written alike: the line determines the three columns. *)
Theorem identifier_determines_columns (r1 r2 : annotated_row)
    (g1 a1 g2 a2 : string) :
  gene r1 = Str g1 -> accession r1 = Str a1 ->
  gene r2 = Str g2 -> accession r2 = Str a2 ->
  has_char tab g1 = false -> has_char tab a1 = false ->
  has_char tab g2 = false -> has_char tab a2 = false ->
  identifier r1 = identifier r2
  <-> g1 = g2 /\ a1 = a2 /\ format_cell (hgnc r1) = format_cell (hgnc r2).
Proof.
  intros Hg1 Ha1 Hg2 Ha2 Tg1 Ta1 Tg2 Ta2. unfold identifier.
  rewrite Hg1, Ha1, Hg2, Ha2. cbn [format_cell]. split.
  - intros H.
    apply tab_split_unique in H as [-> H]; try assumption.
    apply tab_split_unique in H as [-> ->]; try assumption. now repeat split.
  - intros (-> & -> & ->). reflexivity.
Qed.

(** Two exons of BRCA1 give the same line. *)
Lemma identifier_determines_columns_witness :
  identifier brca1_resolved = identifier brca1_other_exon
  <-> "BRCA1" = "BRCA1" /\ "NM_007294.4" = "NM_007294.4"
      /\ format_cell (hgnc brca1_resolved)
         = format_cell (hgnc brca1_other_exon).
Proof.
  apply (identifier_determines_columns brca1_resolved brca1_other_exon
           "BRCA1" "NM_007294.4" "BRCA1" "NM_007294.4"); reflexivity.
Defined.

(** ** [main]: the run as a whole *)


Lemma create_df_Ok_inv (input_file : string) (file_rows : list sambamba_row)
    (output_prefix : string) (coverage_df : list coverage_row) :
  create_df input_file file_rows = Ok (output_prefix, coverage_df) ->
  Forall2 row_split file_rows coverage_df
  /\ re_search suffix_ahead input_file = Some output_prefix.
Proof.
  intros Hok.
  destruct (some_semicolon_dec file_rows) as [Hnone | Hsome].
  { destruct (create_df_needs_semicolon input_file file_rows Hnone) as [H | H];
      rewrite H in Hok; discriminate. }
  destruct (create_df_split file_rows Hsome) as (df & Hrows & Hdf).
  rewrite Hdf in Hok.
  destruct (re_search suffix_ahead input_file); [ | discriminate].
  simpl in Hok. injection Hok as -> <-. now split.
Qed.

Lemma create_df_Ok_rows (input_file : string) (file_rows : list sambamba_row)
    (output_prefix : string) (coverage_df : list coverage_row) :
  create_df input_file file_rows = Ok (output_prefix, coverage_df) ->
  Forall2 row_split file_rows coverage_df.
Proof.
  intros Hok. now apply create_df_Ok_inv in Hok.
Qed.


Lemma flagged_is_issue (coverage_df : list coverage_row) (c : coverage_row) :
  In c coverage_df -> flagged c = true ->
  In (new_issue c) (find_coverage_issues coverage_df).
Proof.
  intros Hin Hflag. rewrite find_coverage_issues_filter.
  apply in_map, filter_In. now split.
Qed.

Lemma Forall2_In_left {A B : Type} (R : A -> B -> Prop) (l1 : list A)
    (l2 : list B) (x : A) :
  Forall2 R l1 l2 -> In x l1 -> exists y, In y l2 /\ R x y.
Proof.
  induction 1 as [ | a b l1 l2 Hab _ IH]; [intros [] | ].
  intros [<- | Hx].
  - exists b. split; [now left | exact Hab].
  - destruct (IH Hx) as (y & Hy & Hxy). exists y. split; [now right | exact Hxy].
Qed.

(** X15 (lines 42 to 43, 99 and 171 to 173): a row of the report whose
    combined value is not a text with a [;] passes the loader as soon
    as another row holds one, but if its percentage is not 100 it
    aborts the run in the resolver: the record it becomes has the
    position and percentage of the row and an accession that is not
    text ([None] after a text without [;], [nan] after a missing
    value), and raises [TypeError] at the search for the prefix. *)
Theorem flagged_row_without_accession_aborts (input_file : string)
    (report : list sambamba_row) (hgnc_dump : list HGNC.row)
    (output_prefix : string) (coverage_df : list coverage_row)
    (r : sambamba_row) :
  create_df input_file report = Ok (output_prefix, coverage_df) ->
  In r report ->
  holds_semicolon r = false ->
  ne_100 (percentage30 r) = true ->
  exists record,
    In record (find_coverage_issues coverage_df)
    /\ exon_position record = FullPosition r
    /\ percent_x30 record = percentage30 r
    /\ ((exists s, GeneSymbol_Accession r = ReadStr s
                   /\ gene record = Str s /\ accession record = PyNone)
        \/ (holds_text r = false
            /\ gene record = NaN /\ accession record = NaN))
    /\ hgnc_for hgnc_dump record = Raise TypeError
    /\ exists err, main input_file report hgnc_dump = Raise err.
Proof.
  intros Hok Hin Hsemi Hne.
  pose proof (create_df_Ok_rows _ _ _ _ Hok) as Hrows.
  destruct (Forall2_In_left _ _ _ r Hrows Hin) as (c & Hc & Hsplit).
  assert (Hflag : flagged c = true).
  { unfold flagged. now destruct Hsplit. }
  pose proof (flagged_is_issue coverage_df c Hc Hflag) as Hissue.
  assert (Hacc : (exists s, GeneSymbol_Accession r = ReadStr s
                            /\ gene (new_issue c) = Str s
                            /\ accession (new_issue c) = PyNone)
                 \/ (holds_text r = false
                     /\ gene (new_issue c) = NaN
                     /\ accession (new_issue c) = NaN)).
  { destruct Hsplit as [r g a Hga Hg | r s Hs Hno | r Hno].
    - exfalso. unfold holds_semicolon in Hsemi. rewrite Hga in Hsemi.
      rewrite has_char_app in Hsemi. simpl in Hsemi.
      rewrite orb_true_r in Hsemi. discriminate.
    - left. now exists s.
    - right. now repeat split. }
  assert (Htype : hgnc_for hgnc_dump (new_issue c) = Raise TypeError).
  { unfold hgnc_for.
    destruct Hacc as [(s & _ & _ & ->) | (_ & _ & ->)]; reflexivity. }
  exists (new_issue c).
  split; [exact Hissue | ].
  split; [now destruct Hsplit | ].
  split; [now destruct Hsplit | ].
  split; [exact Hacc | ].
  split; [exact Htype | ].
  unfold main. rewrite Hok. simpl.
  destruct (get_hgncs_aborts hgnc_dump (find_coverage_issues coverage_df)
              (new_issue c) TypeError Hissue Htype) as (err & ->).
  now exists err.
Qed.

(** A report of two rows, the first one a missing value at 80. *)
Lemma flagged_row_without_accession_aborts_witness :
  exists record,
    In record
       (find_coverage_issues
          [ {| sambamba := missing_flagged_row;
               GeneSymbol := NaN; Accession := NaN |};
            {| sambamba := brca1_report_row;
               GeneSymbol := Str "BRCA1"; Accession := Str "NM_007294.4" |} ])
    /\ exon_position record = FullPosition missing_flagged_row
    /\ percent_x30 record = percentage30 missing_flagged_row
    /\ ((exists s, GeneSymbol_Accession missing_flagged_row = ReadStr s
                   /\ gene record = Str s /\ accession record = PyNone)
        \/ (holds_text missing_flagged_row = false
            /\ gene record = NaN /\ accession record = NaN))
    /\ hgnc_for [brca1_entry] record = Raise TypeError
    /\ exists err,
         main "s1.sambamba_output.txt" [missing_flagged_row; brca1_report_row]
              [brca1_entry]
         = Raise err.
Proof.
  apply (flagged_row_without_accession_aborts "s1.sambamba_output.txt"
           [missing_flagged_row; brca1_report_row] [brca1_entry] "s1").
  - reflexivity.
  - now left.
  - reflexivity.
  - reflexivity.
Defined.




